(** * PFT interpreter ([app.py]): lower limit of normal, peak flow and the
    interpretation decision tree, over IEEE 754 binary64 arithmetic. *)

From Stdlib Require Import ZArith List Bool Lia.
From Stdlib Require Import Strings.String Strings.Ascii Numbers.DecimalString.
From Stdlib Require Import Floats.SpecFloat.
Import ListNotations.

Local Open Scope Z_scope.
Local Open Scope string_scope.

(** ** Python floats

    A Python [float] is an IEEE 754 binary64 number.  The operations are the
    ones of the Standard Library's executable specification, at precision 53
    and maximal exponent 1024, rounding to nearest, ties to even. *)
Module Py.

Definition prec : Z := 53.
Definition emax : Z := 1024.

Definition float : Type := spec_float.

Definition mul : float -> float -> float := SFmul prec emax.
Definition add : float -> float -> float := SFadd prec emax.
Definition sub : float -> float -> float := SFsub prec emax.

(** [x < y], [x <= y], [x > y], [x >= y]: all false when a NaN is involved. *)
Definition lt (x y : float) : bool := SFltb x y.
Definition le (x y : float) : bool := SFleb x y.
Definition gt (x y : float) : bool := SFltb y x.
Definition ge (x y : float) : bool := SFleb y x.

Definition is_nan (x : float) : bool :=
  match x with S754_nan => true | _ => false end.

(** An [int] operand of a mixed operation is converted to the binary64 of the
    same value; every integer the program writes is small enough to be exact. *)
Definition of_int (n : Z) : float := binary_normalize prec emax n 0 false.

(** The decimal literal [n/d] ([0.02] is [decimal 2 100]): the binary64
    nearest to the quotient, which is what the correctly rounded division of
    two exact operands gives. *)
Definition decimal (n : Z) (d : positive) : float :=
  SFdiv prec emax (of_int n) (of_int (Zpos d)).

(** [max(0, x)]: the builtin keeps its first argument unless a later one is
    strictly greater, so a NaN or a negative zero gives [0].  The [int] 0 it
    then returns compares and prints (under [.2f]) as the float [0.0], by
    which it is represented here. *)
Definition max0 (x : float) : float :=
  if gt x (of_int 0) then x else of_int 0.

(** *** [format(x, ".2f")] *)

(** Nearest integer to [n/d] for [0 <= n] and [0 < d], ties to even. *)
Definition round_half_even (n d : Z) : Z :=
  let q := n / d in
  match (2 * (n mod d) ?= d)%Z with
  | Lt => q
  | Gt => q + 1
  | Eq => if Z.even q then q else q + 1
  end.

(** [m * 2^e] in hundredths, correctly rounded. *)
Definition hundredths (m : positive) (e : Z) : Z :=
  if (0 <=? e)%Z then Zpos m * 2 ^ e * 100
  else round_half_even (Zpos m * 100) (2 ^ (- e)).

Definition digits (n : Z) : string := NilZero.string_of_uint (N.to_uint (Z.to_N n)).

Definition two_digits (n : Z) : string :=
  if (n <? 10)%Z then "0" ++ digits n else digits n.

Definition sign (s : bool) : string := if s then "-" else "".

Definition format_2f (x : float) : string :=
  match x with
  | S754_nan => "nan"
  | S754_infinity s => sign s ++ "inf"
  | S754_zero s => sign s ++ "0.00"
  | S754_finite s m e =>
      let h := hundredths m e in
      sign s ++ digits (h / 100) ++ "." ++ two_digits (h mod 100)
  end.

(** *** Further builtins, used by the page *)

(** [x / y] on floats. *)
Definition div : float -> float -> float := SFdiv prec emax.

(** [bool(x)], the test of [if x:]: false for the two zeros only, so a NaN
    counts as true. *)
Definition truthy (x : float) : bool :=
  match x with S754_zero _ => false | _ => true end.

(** [round(x, 2)]: the decimal with two places nearest to the exact value of
    [x], ties to even, read back as the nearest binary64; the sign is kept
    when the result is zero, and infinities and NaN are returned as they
    are.  The quotient is taken on the exact integer [h], whatever its size. *)
Definition round2 (x : float) : float :=
  match x with
  | S754_finite s m e =>
      let h := hundredths m e in
      if (h =? 0)%Z then S754_zero s
      else SFdiv prec emax (S754_finite s (Z.to_pos h) 0) (S754_finite false 100 0)
  | _ => x
  end.

End Py.

Declare Scope pyfloat_scope.
Delimit Scope pyfloat_scope with py.
Bind Scope pyfloat_scope with Py.float.
Infix "*" := Py.mul : pyfloat_scope.
Infix "+" := Py.add : pyfloat_scope.
Infix "-" := Py.sub : pyfloat_scope.
Infix "<?" := Py.lt : pyfloat_scope.
Infix "<=?" := Py.le : pyfloat_scope.
Infix ">?" := Py.gt : pyfloat_scope.
Infix ">=?" := Py.ge : pyfloat_scope.

(** ** The program *)

(** Lines 7-14 of [calculate_lln]: the ethnicity adjustment. *)
Definition adjustment_factor (ethnicity : string) : Py.float :=
  if ethnicity =? "Caucasian" then Py.of_int 1
  else if ethnicity =? "African American" then Py.decimal 88 100
  else if ethnicity =? "Asian" then Py.decimal 94 100
  else Py.of_int 1.

Definition calculate_lln (parameter age : Py.float) (gender : string)
    (height : Py.float) (ethnicity : string) : Py.float :=
  let lln_value :=
    (adjustment_factor ethnicity *
       (parameter - (age * Py.decimal 2 100) + (height * Py.decimal 5 100)))%py in
  Py.max0 lln_value.

Definition calculate_pef (age : Py.float) (gender : string) (height : Py.float)
    : option Py.float :=
  if gender =? "Male" then
    Some (Py.of_int 187 + (Py.decimal 548 100 * height) - (Py.decimal 34 1000 * age))%py
  else if gender =? "Female" then
    Some (Py.of_int 153 + (Py.decimal 450 100 * height) - (Py.decimal 26 1000 * age))%py
  else None.

(** [interpretation.append(line)] on the local list. *)
Definition append (interpretation : list string) (line : string) : list string :=
  (interpretation ++ [line])%list.

(** The numeric arguments are floats.  The form passes floats for all but
    the age, an [int], which enters the computation only as [age * 0.02],
    where it is converted first; an absent optional argument is [None]. *)
Definition interpret_pft (fev1 fvc fev1_fvc age : Py.float) (gender : string)
    (height : Py.float) (ethnicity : string)
    (dlco_sb dl_va va_sb ivc_sb bht : option Py.float) : list string :=
  let interpretation : list string := [] in
  let fev1_fvc_lln := calculate_lln (Py.of_int 1) age gender height ethnicity in
  (* Obstructive pattern *)
  let interpretation :=
    if (fev1_fvc <? fev1_fvc_lln)%py then
      let interpretation :=
        append interpretation
          ("Obstructive pattern detected (LLN-adjusted cutoff: "
             ++ Py.format_2f fev1_fvc_lln ++ ").") in
      if (fev1 >=? Py.of_int 70)%py then
        let interpretation := append interpretation "Severity: Mild obstruction." in
        append interpretation "Next steps: Consider a short-acting beta-agonist (e.g., albuterol). Reassess if symptoms persist."
      else if (Py.of_int 50 <=? fev1)%py && (fev1 <? Py.of_int 70)%py then
        let interpretation := append interpretation "Severity: Moderate obstruction." in
        append interpretation "Next steps: Consider adding long-acting bronchodilators (e.g., LABA or LAMA). Evaluate for inhaled corticosteroids if needed."
      else if (fev1 <? Py.of_int 50)%py then
        let interpretation := append interpretation "Severity: Severe obstruction." in
        append interpretation "Next steps: Refer to a pulmonologist. Consider advanced therapies like combination inhalers or oxygen therapy if indicated."
      else interpretation
    else interpretation in
  (* Restrictive pattern *)
  let interpretation :=
    if (fvc <? Py.of_int 80)%py && (fev1_fvc >=? fev1_fvc_lln)%py then
      let interpretation := append interpretation "Restrictive pattern detected." in
      append interpretation "Next steps: Evaluate for interstitial lung disease, obesity, or neuromuscular disorders. Consider high-resolution CT or referral to a specialist."
    else interpretation in
  (* Mixed pattern *)
  let interpretation :=
    if (fev1_fvc <? fev1_fvc_lln)%py && (fvc <? Py.of_int 80)%py then
      let interpretation := append interpretation "Mixed obstructive and restrictive pattern detected." in
      append interpretation "Next steps: Comprehensive workup needed. Evaluate for concurrent obstructive and restrictive conditions. Referral to pulmonology recommended."
    else interpretation in
  (* DLCO evaluation *)
  let interpretation :=
    match dlco_sb with
    | Some dlco_sb =>
        if (dlco_sb <? Py.of_int 80)%py then
          let interpretation := append interpretation "Reduced DLCO_SB: Suggests impaired gas exchange." in
          append interpretation "Next steps: Investigate causes such as interstitial lung disease, pulmonary hypertension, or emphysema. Consider echocardiography or CT imaging."
        else append interpretation "DLCO_SB is within normal limits."
    | None => interpretation
    end in
  let interpretation :=
    match dl_va with
    | Some dl_va =>
        append interpretation
          ("DL/VA ratio: " ++ Py.format_2f dl_va
             ++ ". Interpretation depends on clinical context (e.g., lung volume and gas exchange).")
    | None => interpretation
    end in
  let interpretation :=
    match va_sb with
    | Some va_sb =>
        append interpretation
          ("VA_SB: " ++ Py.format_2f va_sb ++ " L. This represents the alveolar volume.")
    | None => interpretation
    end in
  let interpretation :=
    match ivc_sb with
    | Some ivc_sb =>
        append interpretation
          ("IVC_SB: " ++ Py.format_2f ivc_sb
             ++ " L. Represents inspiratory capacity during single breath testing.")
    | None => interpretation
    end in
  let interpretation :=
    match bht with
    | Some bht =>
        append interpretation
          ("Breath-holding time (BHT): " ++ Py.format_2f bht
             ++ " seconds. Ensure proper technique during test.")
    | None => interpretation
    end in
  match interpretation with
  | [] =>
      let interpretation := append interpretation "Normal PFT values." in
      append interpretation "Next steps: No action needed. Encourage routine follow-up if indicated."
  | _ :: _ => interpretation
  end.

(** ** The interpreter as the concatenation of its rules

    Each rule of [interpret_pft] appends to the list or leaves it alone, so
    the result is the concatenation of what the rules contribute, in source
    order, with the fallback when nothing was contributed. *)
Section Rules.

Variables (fev1 fvc fev1_fvc : Py.float) (fev1_fvc_lln : Py.float).

Definition obstructive_line : string :=
  "Obstructive pattern detected (LLN-adjusted cutoff: "
    ++ Py.format_2f fev1_fvc_lln ++ ").".

Definition severity_lines : list string :=
  if (fev1 >=? Py.of_int 70)%py then
    ["Severity: Mild obstruction.";
     "Next steps: Consider a short-acting beta-agonist (e.g., albuterol). Reassess if symptoms persist."]
  else if (Py.of_int 50 <=? fev1)%py && (fev1 <? Py.of_int 70)%py then
    ["Severity: Moderate obstruction.";
     "Next steps: Consider adding long-acting bronchodilators (e.g., LABA or LAMA). Evaluate for inhaled corticosteroids if needed."]
  else if (fev1 <? Py.of_int 50)%py then
    ["Severity: Severe obstruction.";
     "Next steps: Refer to a pulmonologist. Consider advanced therapies like combination inhalers or oxygen therapy if indicated."]
  else [].

Definition obstructive_lines : list string :=
  if (fev1_fvc <? fev1_fvc_lln)%py then obstructive_line :: severity_lines else [].

Definition restrictive_lines : list string :=
  if (fvc <? Py.of_int 80)%py && (fev1_fvc >=? fev1_fvc_lln)%py then
    ["Restrictive pattern detected.";
     "Next steps: Evaluate for interstitial lung disease, obesity, or neuromuscular disorders. Consider high-resolution CT or referral to a specialist."]
  else [].

Definition mixed_lines : list string :=
  if (fev1_fvc <? fev1_fvc_lln)%py && (fvc <? Py.of_int 80)%py then
    ["Mixed obstructive and restrictive pattern detected.";
     "Next steps: Comprehensive workup needed. Evaluate for concurrent obstructive and restrictive conditions. Referral to pulmonology recommended."]
  else [].

Definition pattern_lines : list string :=
  (obstructive_lines ++ restrictive_lines ++ mixed_lines)%list.

End Rules.

Definition dlco_lines (dlco_sb : option Py.float) : list string :=
  match dlco_sb with
  | Some dlco_sb =>
      if (dlco_sb <? Py.of_int 80)%py then
        ["Reduced DLCO_SB: Suggests impaired gas exchange.";
         "Next steps: Investigate causes such as interstitial lung disease, pulmonary hypertension, or emphysema. Consider echocardiography or CT imaging."]
      else ["DLCO_SB is within normal limits."]
  | None => []
  end.

Definition info_line (before after : string) (x : option Py.float) : list string :=
  match x with
  | Some x => [before ++ Py.format_2f x ++ after]
  | None => []
  end.

Definition diffusion_lines (dlco_sb dl_va va_sb ivc_sb bht : option Py.float)
    : list string :=
  (dlco_lines dlco_sb
     ++ info_line "DL/VA ratio: "
          ". Interpretation depends on clinical context (e.g., lung volume and gas exchange)." dl_va
     ++ info_line "VA_SB: " " L. This represents the alveolar volume." va_sb
     ++ info_line "IVC_SB: "
          " L. Represents inspiratory capacity during single breath testing." ivc_sb
     ++ info_line "Breath-holding time (BHT): "
          " seconds. Ensure proper technique during test." bht)%list.

Definition normal_lines : list string :=
  ["Normal PFT values.";
   "Next steps: No action needed. Encourage routine follow-up if indicated."].

Definition fallback (interpretation : list string) : list string :=
  match interpretation with
  | [] => normal_lines
  | _ :: _ => interpretation
  end.

(** ** The order of the comparisons

    [SFcompare] orders the numbers by sign class, then exponent, then
    mantissa, the last two reversed below zero.  [key] makes that position
    explicit; a NaN has none, which is why every comparison with it fails. *)
Module PyOrder.

Definition key (x : Py.float) : option (Z * Z * Z) :=
  match x with
  | S754_nan => None
  | S754_infinity true => Some (-2, 0, 0)
  | S754_finite true m e => Some (-1, - e, - Zpos m)
  | S754_zero _ => Some (0, 0, 0)
  | S754_finite false m e => Some (1, e, Zpos m)
  | S754_infinity false => Some (2, 0, 0)
  end.

Definition lex_lt (a b : Z * Z * Z) : Prop :=
  let '(a1, a2, a3) := a in
  let '(b1, b2, b3) := b in
  a1 < b1 \/ (a1 = b1 /\ (a2 < b2 \/ (a2 = b2 /\ a3 < b3))).

Definition lex_le (a b : Z * Z * Z) : Prop := lex_lt a b \/ a = b.

Definition lt (x y : Py.float) : Prop :=
  exists a b, key x = Some a /\ key y = Some b /\ lex_lt a b.

Definition le (x y : Py.float) : Prop :=
  exists a b, key x = Some a /\ key y = Some b /\ lex_le a b.

End PyOrder.

(** ** Reading the output *)

(** The severity bands among the lines of an interpretation. *)
Definition severity_bands (interpretation : list string) : list string :=
  filter (String.prefix "Severity: ") interpretation.

Definition is_obstructive_line (line : string) : bool :=
  String.prefix "Obstructive pattern detected" line.

(** *** Whole-number patients

    The form hands in the age as a whole number of years from 0 to 120 and
    a height of at most 254 cm (100 inches); [zrange n] lists [0 .. n-1]. *)
Definition zrange (n : nat) : list Z := map Z.of_nat (seq 0 n).

(** The numbers [calculate_lln] writes, evaluated once, and the cutoff of a
    Caucasian patient over them: [caucasian_cutoff] is the body of
    [calculate_lln 1.0 age _ height "Caucasian"] with its literals replaced
    by their values ([caucasian_cutoff_eq] below). *)
Definition float_0 : Py.float := Eval vm_compute in Py.of_int 0.
Definition float_1 : Py.float := Eval vm_compute in Py.of_int 1.
Definition float_0_02 : Py.float := Eval vm_compute in Py.decimal 2 100.
Definition float_0_05 : Py.float := Eval vm_compute in Py.decimal 5 100.

Definition caucasian_cutoff (age height : Py.float) : Py.float :=
  let lln_value :=
    (float_1 * (float_1 - (age * float_0_02) + (height * float_0_05)))%py in
  if (lln_value >? float_0)%py then lln_value else float_0.

(** The arguments of a call of [interpret_pft], as one value. *)
Record pft_input : Type := {
  in_fev1 : Py.float;
  in_fvc : Py.float;
  in_fev1_fvc : Py.float;
  in_age : Py.float;
  in_gender : string;
  in_height : Py.float;
  in_ethnicity : string;
  in_dlco_sb : option Py.float;
  in_dl_va : option Py.float;
  in_va_sb : option Py.float;
  in_ivc_sb : option Py.float;
  in_bht : option Py.float
}.

Definition interpret (i : pft_input) : list string :=
  interpret_pft (in_fev1 i) (in_fvc i) (in_fev1_fvc i) (in_age i) (in_gender i)
    (in_height i) (in_ethnicity i) (in_dlco_sb i) (in_dl_va i) (in_va_sb i)
    (in_ivc_sb i) (in_bht i).

(** ** The interpreter over list objects

    In the source [interpretation = []] creates a list object, [append]
    changes that object in place and the function returns a reference to it.
    Here the objects live in a heap, a reference is a position in it, and a
    statement is a function from the heap to a result and the new heap. *)
Module Obj.

Definition heap : Type := list (list string).
Definition ref : Type := nat.
Definition M (A : Type) : Type := heap -> A * heap.

Definition ret {A : Type} (a : A) : M A := fun h => (a, h).

Definition bind {A B : Type} (m : M A) (k : A -> M B) : M B :=
  fun h => let (a, h') := m h in k a h'.

(** [[]]: a new, empty list object. *)
Definition new_list : M ref := fun h => (List.length h, (h ++ [[]])%list).

Fixpoint update (r : ref) (f : list string -> list string) (h : heap) : heap :=
  match h, r with
  | [], _ => []
  | l :: t, O => f l :: t
  | l :: t, S r' => l :: update r' f t
  end.

(** [r.append(line)]. *)
Definition list_append (r : ref) (line : string) : M unit :=
  fun h => (tt, update r (fun l => (l ++ [line])%list) h).

(** [not r]: whether the list is empty. *)
Definition list_not (r : ref) : M bool :=
  fun h => (match nth_error h r with Some [] => true | _ => false end, h).

(** The content of the list object [r]. *)
Definition content (h : heap) (r : ref) : option (list string) := nth_error h r.

End Obj.

Notation "x <- m ;; k" := (Obj.bind m (fun x => k))
  (at level 61, m at next level, right associativity).
Notation "m ;;; k" := (Obj.bind m (fun _ : unit => k))
  (at level 61, right associativity).

Definition interpret_pft_object (fev1 fvc fev1_fvc age : Py.float)
    (gender : string) (height : Py.float) (ethnicity : string)
    (dlco_sb dl_va va_sb ivc_sb bht : option Py.float) : Obj.M Obj.ref :=
  interpretation <- Obj.new_list ;;
  let fev1_fvc_lln := calculate_lln (Py.of_int 1) age gender height ethnicity in
  (* Obstructive pattern *)
  (if (fev1_fvc <? fev1_fvc_lln)%py then
     Obj.list_append interpretation
       ("Obstructive pattern detected (LLN-adjusted cutoff: "
          ++ Py.format_2f fev1_fvc_lln ++ ").") ;;;
     if (fev1 >=? Py.of_int 70)%py then
       Obj.list_append interpretation "Severity: Mild obstruction." ;;;
       Obj.list_append interpretation "Next steps: Consider a short-acting beta-agonist (e.g., albuterol). Reassess if symptoms persist."
     else if (Py.of_int 50 <=? fev1)%py && (fev1 <? Py.of_int 70)%py then
       Obj.list_append interpretation "Severity: Moderate obstruction." ;;;
       Obj.list_append interpretation "Next steps: Consider adding long-acting bronchodilators (e.g., LABA or LAMA). Evaluate for inhaled corticosteroids if needed."
     else if (fev1 <? Py.of_int 50)%py then
       Obj.list_append interpretation "Severity: Severe obstruction." ;;;
       Obj.list_append interpretation "Next steps: Refer to a pulmonologist. Consider advanced therapies like combination inhalers or oxygen therapy if indicated."
     else Obj.ret tt
   else Obj.ret tt) ;;;
  (* Restrictive pattern *)
  (if (fvc <? Py.of_int 80)%py && (fev1_fvc >=? fev1_fvc_lln)%py then
     Obj.list_append interpretation "Restrictive pattern detected." ;;;
     Obj.list_append interpretation "Next steps: Evaluate for interstitial lung disease, obesity, or neuromuscular disorders. Consider high-resolution CT or referral to a specialist."
   else Obj.ret tt) ;;;
  (* Mixed pattern *)
  (if (fev1_fvc <? fev1_fvc_lln)%py && (fvc <? Py.of_int 80)%py then
     Obj.list_append interpretation "Mixed obstructive and restrictive pattern detected." ;;;
     Obj.list_append interpretation "Next steps: Comprehensive workup needed. Evaluate for concurrent obstructive and restrictive conditions. Referral to pulmonology recommended."
   else Obj.ret tt) ;;;
  (* DLCO evaluation *)
  match dlco_sb with
  | Some dlco_sb =>
      if (dlco_sb <? Py.of_int 80)%py then
        Obj.list_append interpretation "Reduced DLCO_SB: Suggests impaired gas exchange." ;;;
        Obj.list_append interpretation "Next steps: Investigate causes such as interstitial lung disease, pulmonary hypertension, or emphysema. Consider echocardiography or CT imaging."
      else Obj.list_append interpretation "DLCO_SB is within normal limits."
  | None => Obj.ret tt
  end ;;;
  match dl_va with
  | Some dl_va =>
      Obj.list_append interpretation
        ("DL/VA ratio: " ++ Py.format_2f dl_va
           ++ ". Interpretation depends on clinical context (e.g., lung volume and gas exchange).")
  | None => Obj.ret tt
  end ;;;
  match va_sb with
  | Some va_sb =>
      Obj.list_append interpretation
        ("VA_SB: " ++ Py.format_2f va_sb ++ " L. This represents the alveolar volume.")
  | None => Obj.ret tt
  end ;;;
  match ivc_sb with
  | Some ivc_sb =>
      Obj.list_append interpretation
        ("IVC_SB: " ++ Py.format_2f ivc_sb
           ++ " L. Represents inspiratory capacity during single breath testing.")
  | None => Obj.ret tt
  end ;;;
  match bht with
  | Some bht =>
      Obj.list_append interpretation
        ("Breath-holding time (BHT): " ++ Py.format_2f bht
           ++ " seconds. Ensure proper technique during test.")
  | None => Obj.ret tt
  end ;;;
  empty <- Obj.list_not interpretation ;;
  (if empty then
     Obj.list_append interpretation "Normal PFT values." ;;;
     Obj.list_append interpretation "Next steps: No action needed. Encourage routine follow-up if indicated."
   else Obj.ret tt) ;;;
  Obj.ret interpretation.

Definition interpret_object (i : pft_input) : Obj.M Obj.ref :=
  interpret_pft_object (in_fev1 i) (in_fvc i) (in_fev1_fvc i) (in_age i)
    (in_gender i) (in_height i) (in_ethnicity i) (in_dlco_sb i) (in_dl_va i)
    (in_va_sb i) (in_ivc_sb i) (in_bht i).

(** A statement that does nothing but append the lines [xs] to the list
    object [r], the last one created. *)
Definition appends (m : Obj.M unit) (r : Obj.ref) (xs : list string) : Prop :=
  forall (h : Obj.heap) (l : list string),
    List.length h = r -> m (h ++ [l])%list = (tt, (h ++ [(l ++ xs)%list])%list).

(** ** The page

    What the script computes around the three functions: the metric
    conversions (lines 93 and 97), the optional inputs that are all present or
    all absent (lines 110-122), the call of the interpreter (line 126) and
    the peak-flow block (lines 162-168).  [st.write] is modelled by the list
    of the strings written. *)
Definition weight_kg_of (weight_lbs : Py.float) : Py.float :=
  Py.round2 (weight_lbs * Py.decimal 453592 1000000)%py.

Definition height_cm_of (height_inches : Py.float) : Py.float :=
  Py.round2 (height_inches * Py.decimal 254 100)%py.

(** The five optional inputs as the sidebar leaves them. *)
Record optional_inputs : Type := {
  opt_dlco_sb : option Py.float;
  opt_dl_va : option Py.float;
  opt_va_sb : option Py.float;
  opt_ivc_sb : option Py.float;
  opt_bht : option Py.float
}.

Definition sidebar_optional (show_additional : bool)
    (dlco_sb dl_va va_sb ivc_sb bht : Py.float) : optional_inputs :=
  if show_additional then
    {| opt_dlco_sb := Some dlco_sb; opt_dl_va := Some dl_va;
       opt_va_sb := Some va_sb; opt_ivc_sb := Some ivc_sb; opt_bht := Some bht |}
  else
    {| opt_dlco_sb := None; opt_dl_va := None; opt_va_sb := None;
       opt_ivc_sb := None; opt_bht := None |}.

(** [results] of line 126, from the values of the widgets. *)
Definition page_results (fev1 fvc fev1_fvc age : Py.float) (gender : string)
    (height_inches : Py.float) (ethnicity : string) (o : optional_inputs)
    : list string :=
  let height_cm := height_cm_of height_inches in
  interpret_pft fev1 fvc (Py.div fev1_fvc (Py.of_int 100)) age gender height_cm
    ethnicity (opt_dlco_sb o) (opt_dl_va o) (opt_va_sb o) (opt_ivc_sb o)
    (opt_bht o).

(** The peak-flow block, lines 163-168. *)
Definition show_pef (age : Py.float) (gender : string) (height_cm : Py.float)
    : list string :=
  let pef := calculate_pef age gender height_cm in
  match pef with
  | Some v =>
      if Py.truthy v then
        ["**Estimated Peak Expiratory Flow (PEF):** " ++ Py.format_2f v
           ++ " L/min (based on NHANES equations).";
         "**Caveat:** NHANES equations may not fully account for variations across all ethnic groups."]
      else ["PEF calculation not available for the selected gender."]
  | None => ["PEF calculation not available for the selected gender."]
  end.

(** The lines of an output that start with [p]. *)
Definition lines_with (p : string) (interpretation : list string) : list string :=
  filter (String.prefix p) interpretation.

(** *** Evaluated literals and the two estimators over them

    [cutoff_base] and [adjusted_cutoff] are the two halves of
    [calculate_lln 1.0 age _ height ethnicity], [male_pef] and [female_pef]
    the two formulas of [calculate_pef], with the literals replaced by
    their values (the [_eq] lemmas below). *)
Definition float_0_88 : Py.float := Eval vm_compute in Py.decimal 88 100.
Definition float_0_94 : Py.float := Eval vm_compute in Py.decimal 94 100.
Definition float_187 : Py.float := Eval vm_compute in Py.of_int 187.
Definition float_153 : Py.float := Eval vm_compute in Py.of_int 153.
Definition float_5_48 : Py.float := Eval vm_compute in Py.decimal 548 100.
Definition float_4_50 : Py.float := Eval vm_compute in Py.decimal 450 100.
Definition float_0_034 : Py.float := Eval vm_compute in Py.decimal 34 1000.
Definition float_0_026 : Py.float := Eval vm_compute in Py.decimal 26 1000.

Definition cutoff_base (age height : Py.float) : Py.float :=
  (float_1 - (age * float_0_02) + (height * float_0_05))%py.

Definition adjusted_cutoff (factor base : Py.float) : Py.float :=
  let lln_value := (factor * base)%py in
  if (lln_value >? float_0)%py then lln_value else float_0.

Definition male_pef (age height : Py.float) : Py.float :=
  (float_187 + (float_5_48 * height) - (float_0_034 * age))%py.

Definition female_pef (age height : Py.float) : Py.float :=
  (float_153 + (float_4_50 * height) - (float_0_026 * age))%py.

(** What the two estimators compute from the age alone and from the height
    alone, for a whole-number age and height. *)
Definition cutoff_age_part (age_years : Z) : Py.float :=
  (float_1 - (Py.of_int age_years * float_0_02))%py.

Definition cutoff_height_part (height_cm : Z) : Z * Py.float :=
  (height_cm, (Py.of_int height_cm * float_0_05)%py).

Definition pef_age_parts (age_years : Z) : Py.float * Py.float :=
  let age := Py.of_int age_years in
  ((float_0_034 * age)%py, (float_0_026 * age)%py).

Definition pef_height_parts (height_cm : Z) : Py.float * Py.float :=
  let height := Py.of_int height_cm in
  ((float_187 + (float_5_48 * height))%py, (float_153 + (float_4_50 * height))%py).

(** Equality of two numbers as bit patterns. *)
Definition same_float (x y : Py.float) : bool :=
  match x, y with
  | S754_zero a, S754_zero b => Bool.eqb a b
  | S754_infinity a, S754_infinity b => Bool.eqb a b
  | S754_nan, S754_nan => true
  | S754_finite a m e, S754_finite b n f =>
      Bool.eqb a b && Pos.eqb m n && Z.eqb e f
  | _, _ => false
  end.

(** *** Heights in hundredths of a centimetre

    The page rounds the height to two decimals, so [interpret_pft] receives
    the binary64 nearest to [k/100] for a whole number [k] of at most 25400.
    The definitions below bound the cutoff from below without evaluating
    it: a value is followed through the quotient, the product and the sum
    as an integer multiple of [2^-128]. *)

(** The value of a finite number whose exponent is at least -128, in units
    of [2^-128]. *)
Definition scaled (x : Py.float) : Z :=
  match x with
  | S754_finite s m e => cond_Zopp s (Zpos m * 2 ^ (e + 128))
  | _ => 0
  end.

(** A positive normal number with exponent from [lo] to [hi]. *)
Definition normalb (lo hi : Z) (x : Py.float) : bool :=
  match x with
  | S754_finite false m e =>
      (2 ^ 52 <=? Zpos m)%Z && (Zpos m <? 2 ^ 53)%Z
      && (lo <=? e)%Z && (e <=? hi)%Z
  | _ => false
  end.

(** A zero, or a finite number below 4 in magnitude with exponent from
    -128 to -52. *)
Definition baseb (x : Py.float) : bool :=
  match x with
  | S754_zero _ => true
  | S754_finite _ m e => (-128 <=? e)%Z && (e <=? -52)%Z && (Zpos m <? 2 ^ 54)%Z
  | _ => false
  end.

(** Two numbers just below the height [(40 * age + 1) / 100] and below its
    twentieth: the binary64 nearest to [(40 * age + 0.5) / 100] and to
    [(40 * age + 0.25) / 2000]. *)
Definition height_floor (age_years : Z) : Py.float :=
  Py.decimal (80 * age_years + 1) 200.

Definition term_floor (age_years : Z) : Py.float :=
  Py.decimal (160 * age_years + 1) 8000.

(** A finite number above 1.0 with exponent at most [E]. *)
Definition above_oneb (E : Z) (x : Py.float) : bool :=
  match x with
  | S754_finite false m e =>
      (2 ^ 52 <=? Zpos m)%Z && (Zpos m <? 2 ^ 53)%Z
      && (-52 <=? e)%Z && (e <=? E)%Z
      && ((-52 <? e)%Z || (2 ^ 52 <? Zpos m)%Z)
  | _ => false
  end.

(** ** The float model on known values *)

(** The literals of the source as bit patterns: [0.02] is
    [0x1.47ae147ae147bp-6], [0.05] is [0x1.999999999999ap-5], and so on. *)
Example literals_binary64 :
  Py.decimal 2 100 = S754_finite false 5764607523034235 (-58)
  /\ Py.decimal 5 100 = S754_finite false 7205759403792794 (-57)
  /\ Py.decimal 88 100 = S754_finite false 7926335344172073 (-53)
  /\ Py.decimal 94 100 = S754_finite false 8466767299456532 (-53)
  /\ Py.decimal 548 100 = S754_finite false 6169931489497580 (-50)
  /\ Py.decimal 34 1000 = S754_finite false 4899916394579100 (-57)
  /\ Py.decimal 26 1000 = S754_finite false 7493989779944505 (-58)
  /\ Py.of_int 1 = S754_finite false 4503599627370496 (-52)
  /\ Py.of_int 0 = S754_zero false.
Proof. repeat split; vm_compute; reflexivity. Qed.

(** [.2f] rounds the exact binary value, ties to even, and keeps the sign. *)
Example format_2f_known :
  Py.format_2f (Py.decimal 2675 1000) = "2.67"
  /\ Py.format_2f (Py.decimal 125 1000) = "0.12"
  /\ Py.format_2f (Py.decimal 5 1000) = "0.01"
  /\ Py.format_2f (Py.decimal (-1) 1000) = "-0.00"
  /\ Py.format_2f (Py.decimal 123456789 10) = "12345678.90"
  /\ Py.format_2f (Py.max0 (Py.of_int (-3))) = "0.00"
  /\ Py.format_2f S754_nan = "nan".
Proof. repeat split; vm_compute; reflexivity. Qed.

(** A full run: every rule but the restrictive one contributes. *)
Example interpret_pft_run :
  interpret_pft (Py.of_int 40) (Py.of_int 70) (Py.decimal 65 100) (Py.of_int 30)
    "Male" (Py.of_int 170) "Asian" (Some (Py.of_int 70))
    (Some (Py.decimal 45 10)) None None (Some (Py.of_int 10))
  = ["Obstructive pattern detected (LLN-adjusted cutoff: 8.37).";
     "Severity: Severe obstruction.";
     "Next steps: Refer to a pulmonologist. Consider advanced therapies like combination inhalers or oxygen therapy if indicated.";
     "Mixed obstructive and restrictive pattern detected.";
     "Next steps: Comprehensive workup needed. Evaluate for concurrent obstructive and restrictive conditions. Referral to pulmonology recommended.";
     "Reduced DLCO_SB: Suggests impaired gas exchange.";
     "Next steps: Investigate causes such as interstitial lung disease, pulmonary hypertension, or emphysema. Consider echocardiography or CT imaging.";
     "DL/VA ratio: 4.50. Interpretation depends on clinical context (e.g., lung volume and gas exchange).";
     "Breath-holding time (BHT): 10.00 seconds. Ensure proper technique during test."].
Proof. vm_compute. reflexivity. Qed.

(** ** Lemmas: the rules of the interpreter *)

(** A [let] of the source becomes a variable with its defining equation. *)
Lemma let_eq {A B : Type} (v : A) (f : A -> B) (r : B) :
  (forall x, x = v -> f x = r) -> (let x := v in f x) = r.
Proof. intros H. exact (H v eq_refl). Qed.

Ltac let_step x H :=
  lazymatch goal with
  | |- (let y := ?v in @?b y) = ?r => apply (let_eq v b r); intros x H
  end.

Ltac appended :=
  cbv zeta; unfold append;
  rewrite <- ?app_assoc, ?app_nil_r; reflexivity.

Lemma interpret_pft_rules fev1 fvc fev1_fvc age gender height ethnicity
    dlco_sb dl_va va_sb ivc_sb bht :
  interpret_pft fev1 fvc fev1_fvc age gender height ethnicity
    dlco_sb dl_va va_sb ivc_sb bht
  = fallback
      (pattern_lines fev1 fvc fev1_fvc
         (calculate_lln (Py.of_int 1) age gender height ethnicity)
       ++ diffusion_lines dlco_sb dl_va va_sb ivc_sb bht)%list.
Proof.
  cbv beta delta [interpret_pft].
  let_step I0 H0. let_step lln Hlln. rewrite <- Hlln. clear Hlln.
  let_step I1 H1.
  assert (E1 : I1 = obstructive_lines fev1 fev1_fvc lln).
  { rewrite H1, H0. clear. unfold obstructive_lines, severity_lines, obstructive_line.
    destruct (fev1_fvc <? lln)%py; [|reflexivity].
    destruct (fev1 >=? Py.of_int 70)%py; [reflexivity|].
    destruct ((Py.of_int 50 <=? fev1)%py && (fev1 <? Py.of_int 70)%py); [reflexivity|].
    destruct (fev1 <? Py.of_int 50)%py; reflexivity. }
  clear H1 H0 I0.
  let_step I2 H2.
  assert (E2 : I2 = (I1 ++ restrictive_lines fvc fev1_fvc lln)%list).
  { rewrite H2. clear. unfold restrictive_lines.
    destruct ((fvc <? Py.of_int 80)%py && (fev1_fvc >=? lln)%py); appended. }
  clear H2.
  let_step I3 H3.
  assert (E3 : I3 = (I2 ++ mixed_lines fvc fev1_fvc lln)%list).
  { rewrite H3. clear. unfold mixed_lines.
    destruct ((fev1_fvc <? lln)%py && (fvc <? Py.of_int 80)%py); appended. }
  clear H3.
  let_step I4 H4.
  assert (E4 : I4 = (I3 ++ dlco_lines dlco_sb)%list).
  { rewrite H4. clear. unfold dlco_lines.
    destruct dlco_sb as [d|]; [destruct (d <? Py.of_int 80)%py|]; appended. }
  clear H4.
  let_step I5 H5.
  assert (E5 : I5 = (I4 ++ info_line "DL/VA ratio: "
          ". Interpretation depends on clinical context (e.g., lung volume and gas exchange)." dl_va)%list).
  { rewrite H5. clear. destruct dl_va; appended. }
  clear H5.
  let_step I6 H6.
  assert (E6 : I6 = (I5 ++ info_line "VA_SB: " " L. This represents the alveolar volume." va_sb)%list).
  { rewrite H6. clear. destruct va_sb; appended. }
  clear H6.
  let_step I7 H7.
  assert (E7 : I7 = (I6 ++ info_line "IVC_SB: "
          " L. Represents inspiratory capacity during single breath testing." ivc_sb)%list).
  { rewrite H7. clear. destruct ivc_sb; appended. }
  clear H7.
  let_step I8 H8.
  assert (E8 : I8 = (I7 ++ info_line "Breath-holding time (BHT): "
          " seconds. Ensure proper technique during test." bht)%list).
  { rewrite H8. clear. destruct bht; appended. }
  clear H8.
  assert (E : I8 = (pattern_lines fev1 fvc fev1_fvc lln
                     ++ diffusion_lines dlco_sb dl_va va_sb ivc_sb bht)%list).
  { subst. unfold pattern_lines, diffusion_lines. now rewrite <- !app_assoc. }
  rewrite <- E. clear. destruct I8; reflexivity.
Qed.

(** ** Lemmas: the order of the comparisons *)

Lemma compare_key (x y : Py.float) :
  match SFcompare x y with
  | None => PyOrder.key x = None \/ PyOrder.key y = None
  | Some c =>
      exists a b, PyOrder.key x = Some a /\ PyOrder.key y = Some b /\
        match c with
        | Lt => PyOrder.lex_lt a b
        | Eq => a = b
        | Gt => PyOrder.lex_lt b a
        end
  end.
Proof.
  destruct x as [sx|sx| |sx mx ex], y as [sy|sy| |sy my ey];
    try destruct sx; try destruct sy; cbn [SFcompare PyOrder.key];
    try (now left); try (now right);
    try (eexists; eexists; split; [reflexivity|split; [reflexivity|]];
         cbn [PyOrder.lex_lt]; try reflexivity; lia).
  - eexists; eexists; split; [reflexivity|split; [reflexivity|]].
    destruct (Z.compare_spec ex ey) as [E|E|E]; cbn [PyOrder.lex_lt]; try lia.
    change (Pos.compare_cont Eq mx my) with (Pos.compare mx my).
    destruct (Pos.compare_spec mx my) as [M|M|M]; cbn [CompOpp]; try lia.
    subst; reflexivity.
  - eexists; eexists; split; [reflexivity|split; [reflexivity|]].
    destruct (Z.compare_spec ex ey) as [E|E|E]; cbn [PyOrder.lex_lt]; try lia.
    change (Pos.compare_cont Eq mx my) with (Pos.compare mx my).
    destruct (Pos.compare_spec mx my) as [M|M|M]; cbn [CompOpp]; try lia.
    subst; reflexivity.
Qed.

Lemma ltb_lt (x y : Py.float) : Py.lt x y = true <-> PyOrder.lt x y.
Proof.
  unfold Py.lt, SFltb, PyOrder.lt. generalize (compare_key x y).
  destruct (SFcompare x y) as [[]|].
  - intros (a & b & Ha & Hb & E). split; [discriminate|].
    intros (a' & b' & Ha' & Hb' & L). rewrite Ha in Ha'. rewrite Hb in Hb'.
    injection Ha' as <-. injection Hb' as <-. subst b.
    destruct a as [[a1 a2] a3]. cbn in L. lia.
  - intros (a & b & Ha & Hb & L). split; [|reflexivity]. intros _. now exists a, b.
  - intros (a & b & Ha & Hb & L). split; [discriminate|].
    intros (a' & b' & Ha' & Hb' & L'). rewrite Ha in Ha'. rewrite Hb in Hb'.
    injection Ha' as <-. injection Hb' as <-.
    destruct a as [[a1 a2] a3], b as [[b1 b2] b3]. cbn in L, L'. lia.
  - intros [H|H]; (split; [discriminate|]);
      intros (a' & b' & Ha' & Hb' & _); congruence.
Qed.

Lemma leb_le (x y : Py.float) : Py.le x y = true <-> PyOrder.le x y.
Proof.
  unfold Py.le, SFleb, PyOrder.le, PyOrder.lex_le. generalize (compare_key x y).
  destruct (SFcompare x y) as [[]|].
  - intros (a & b & Ha & Hb & E). split; [|reflexivity]. intros _.
    exists a, b. auto.
  - intros (a & b & Ha & Hb & L). split; [|reflexivity]. intros _.
    exists a, b. auto.
  - intros (a & b & Ha & Hb & L). split; [discriminate|].
    intros (a' & b' & Ha' & Hb' & L'). rewrite Ha in Ha'. rewrite Hb in Hb'.
    injection Ha' as <-. injection Hb' as <-.
    destruct a as [[a1 a2] a3], b as [[b1 b2] b3]. cbn in L.
    destruct L' as [L'|L']; [cbn in L'; lia | injection L' as -> -> ->; lia].
  - intros [H|H]; (split; [discriminate|]);
      intros (a' & b' & Ha' & Hb' & _); congruence.
Qed.


Lemma lt_le (x y : Py.float) : Py.lt x y = true -> Py.le x y = true.
Proof.
  unfold Py.lt, Py.le, SFltb, SFleb.
  destruct (SFcompare x y) as [[]|]; congruence.
Qed.

Lemma le_lt_trans (x y z : Py.float) :
  Py.le x y = true -> Py.lt y z = true -> Py.lt x z = true.
Proof.
  rewrite leb_le, !ltb_lt.
  intros (a & b & Ha & Hb & L) (b' & c & Hb' & Hc & L').
  rewrite Hb in Hb'. injection Hb' as <-.
  exists a, c. repeat split; trivial.
  destruct a as [[a1 a2] a3], b as [[b1 b2] b3], c as [[c1 c2] c3].
  destruct L as [L|L]; [|injection L as -> -> ->; exact L'].
  cbn in *. lia.
Qed.

Lemma lt_not_ge (x y : Py.float) : Py.lt x y = true -> Py.ge x y = false.
Proof.
  intros L. destruct (Py.ge x y) eqn:G; [|reflexivity].
  unfold Py.ge in G. change (Py.le y x = true) in G.
  pose proof (le_lt_trans _ _ _ G L) as C.
  apply ltb_lt in C. destruct C as (a & b & Ha & Hb & C).
  rewrite Ha in Hb. injection Hb as <-.
  destruct a as [[a1 a2] a3]. cbn in C. lia.
Qed.

Lemma lt_or_ge (x y : Py.float) :
  Py.is_nan x = false -> Py.is_nan y = false ->
  Py.lt x y = true \/ Py.ge x y = true.
Proof.
  intros Nx Ny. unfold Py.lt, Py.ge, SFltb, SFleb.
  generalize (compare_key x y) (compare_key y x).
  destruct (SFcompare x y) as [[]|].
  - intros (a & b & Ha & Hb & E) K. right. subst b.
    destruct (SFcompare y x) as [[]|]; trivial.
    + destruct K as (a' & b' & Ha' & Hb' & K).
      rewrite Hb in Ha'. rewrite Ha in Hb'.
      injection Ha' as <-. injection Hb' as <-.
      destruct a as [[a1 a2] a3]. cbn in K. lia.
    + destruct K; congruence.
  - now left.
  - intros (a & b & Ha & Hb & L) K. right.
    destruct (SFcompare y x) as [[]|]; trivial.
    + destruct K as (a' & b' & Ha' & Hb' & K).
      rewrite Hb in Ha'. rewrite Ha in Hb'.
      injection Ha' as <-. injection Hb' as <-.
      destruct a as [[a1 a2] a3], b as [[b1 b2] b3]. cbn in L, K. lia.
    + destruct K; congruence.
  - intros [K|K] _; [destruct x|destruct y]; try discriminate;
      match goal with s : bool |- _ => destruct s; discriminate end.
Qed.

Lemma nan_compares_false (x y : Py.float) :
  Py.is_nan x = true ->
  Py.lt x y = false /\ Py.le x y = false /\ Py.gt x y = false /\ Py.ge x y = false.
Proof.
  destruct x; try discriminate. intros _.
  unfold Py.lt, Py.le, Py.gt, Py.ge, SFltb, SFleb.
  destruct y; repeat split; reflexivity.
Qed.

(** ** Lemmas: the rule a line comes from *)

Lemma in_fallback (s : string) (l : list string) :
  In s (fallback l) -> In s l \/ (l = [] /\ In s normal_lines).
Proof. destruct l; cbn; auto. Qed.

Ltac line_cases H :=
  unfold obstructive_lines, severity_lines, obstructive_line, restrictive_lines,
    mixed_lines, dlco_lines, info_line, normal_lines in H;
  repeat match type of H with
    | context [if ?c then _ else _] => destruct c eqn:?
    | context [match ?o with Some _ => _ | None => _ end] => destruct o
    end;
  cbn in H; repeat (destruct H as [H|H]); try discriminate H; try contradiction.

Ltac rule_cases H :=
  rewrite interpret_pft_rules in H; apply in_fallback in H;
  destruct H as [H|[_ H]];
  [ unfold pattern_lines, diffusion_lines in H; rewrite !in_app_iff in H;
    destruct H as [[H|[H|H]]|[H|[H|[H|[H|H]]]]] | ];
  line_cases H.

Section Lines.

Variables (fev1 fvc fev1_fvc age : Py.float) (gender : string)
  (height : Py.float) (ethnicity : string)
  (dlco_sb dl_va va_sb ivc_sb bht : option Py.float).

Let lln := calculate_lln (Py.of_int 1) age gender height ethnicity.
Let out := interpret_pft fev1 fvc fev1_fvc age gender height ethnicity
             dlco_sb dl_va va_sb ivc_sb bht.

Lemma mixed_line_rule :
  In "Mixed obstructive and restrictive pattern detected." out ->
  (fev1_fvc <? lln)%py = true /\ (fvc <? Py.of_int 80)%py = true.
Proof.
  unfold out. intros H. rule_cases H.
  now apply andb_true_iff.
Qed.

Lemma restrictive_line_rule :
  In "Restrictive pattern detected." out ->
  (fvc <? Py.of_int 80)%py = true /\ (fev1_fvc >=? lln)%py = true.
Proof.
  unfold out. intros H. rule_cases H.
  now apply andb_true_iff.
Qed.

End Lines.

Lemma obstructive_line_first fev1 fvc fev1_fvc age gender height ethnicity
    dlco_sb dl_va va_sb ivc_sb bht :
  (fev1_fvc <? calculate_lln (Py.of_int 1) age gender height ethnicity)%py = true ->
  interpret_pft fev1 fvc fev1_fvc age gender height ethnicity
    dlco_sb dl_va va_sb ivc_sb bht
  = obstructive_line (calculate_lln (Py.of_int 1) age gender height ethnicity)
      :: (severity_lines fev1
            ++ restrictive_lines fvc fev1_fvc
                 (calculate_lln (Py.of_int 1) age gender height ethnicity)
            ++ mixed_lines fvc fev1_fvc
                 (calculate_lln (Py.of_int 1) age gender height ethnicity)
            ++ diffusion_lines dlco_sb dl_va va_sb ivc_sb bht)%list.
Proof.
  intros L. rewrite interpret_pft_rules.
  unfold pattern_lines, obstructive_lines. rewrite L.
  cbn [app fallback]. now rewrite <- !app_assoc.
Qed.

Lemma obstructive_line_is_obstructive (lln : Py.float) :
  is_obstructive_line (obstructive_line lln) = true.
Proof. reflexivity. Qed.

(** The severity bands of the lines that are not severity lines. *)
Lemma severity_bands_app (l1 l2 : list string) :
  severity_bands (l1 ++ l2) = (severity_bands l1 ++ severity_bands l2)%list.
Proof. apply filter_app. Qed.

Lemma severity_bands_restrictive fvc fev1_fvc lln :
  severity_bands (restrictive_lines fvc fev1_fvc lln) = [].
Proof. unfold restrictive_lines. now destruct (_ && _). Qed.

Lemma severity_bands_mixed fvc fev1_fvc lln :
  severity_bands (mixed_lines fvc fev1_fvc lln) = [].
Proof. unfold mixed_lines. now destruct (_ && _). Qed.

Lemma severity_bands_diffusion dlco_sb dl_va va_sb ivc_sb bht :
  severity_bands (diffusion_lines dlco_sb dl_va va_sb ivc_sb bht) = [].
Proof.
  unfold diffusion_lines. rewrite !severity_bands_app.
  assert (D : severity_bands (dlco_lines dlco_sb) = []).
  { unfold dlco_lines. destruct dlco_sb as [d|]; [|reflexivity].
    now destruct (d <? Py.of_int 80)%py. }
  rewrite D. now destruct dl_va, va_sb, ivc_sb, bht.
Qed.

Lemma severity_bands_obstructive fev1 fvc fev1_fvc age gender height ethnicity
    dlco_sb dl_va va_sb ivc_sb bht :
  (fev1_fvc <? calculate_lln (Py.of_int 1) age gender height ethnicity)%py = true ->
  severity_bands
    (interpret_pft fev1 fvc fev1_fvc age gender height ethnicity
       dlco_sb dl_va va_sb ivc_sb bht)
  = severity_bands (severity_lines fev1).
Proof.
  intros L. rewrite (obstructive_line_first _ _ _ _ _ _ _ _ _ _ _ _ L).
  change (severity_bands (obstructive_line ?l :: ?r)) with (severity_bands r).
  rewrite !severity_bands_app, severity_bands_restrictive, severity_bands_mixed,
    severity_bands_diffusion.
  now rewrite !app_nil_r.
Qed.

(** ** The estimators *)

(** C4. [calculate_pef] returns no value exactly when the gender is neither
    "Male" nor "Female"; for "Male" it returns
    [187 + 5.48*height - 0.034*age] and for "Female"
    [153 + 4.50*height - 0.026*age], as computed, with no clamp: a result
    below zero is returned as it is. *)
Theorem calculate_pef_by_gender (age height : Py.float) (gender : string) :
  (calculate_pef age gender height = None
     <-> gender <> "Male" /\ gender <> "Female")
  /\ calculate_pef age "Male" height
     = Some (Py.of_int 187 + (Py.decimal 548 100 * height)
               - (Py.decimal 34 1000 * age))%py
  /\ calculate_pef age "Female" height
     = Some (Py.of_int 153 + (Py.decimal 450 100 * height)
               - (Py.decimal 26 1000 * age))%py
  /\ (exists v, calculate_pef (Py.of_int 0) "Male" (Py.of_int (-100)) = Some v
                /\ (v <? Py.of_int 0)%py = true).
Proof.
  split; [|split; [reflexivity|split; [reflexivity|]]].
  - unfold calculate_pef.
    destruct (String.eqb_spec gender "Male") as [M|M].
    { split; [discriminate | intros [C _]; contradiction]. }
    destruct (String.eqb_spec gender "Female") as [F|F].
    { split; [discriminate | intros [_ C]; contradiction]. }
    split; [now split | reflexivity].
  - eexists. split; [reflexivity|]. vm_compute. reflexivity.
Qed.

(** C5. For every parameter, age, gender, height and ethnicity the value of
    [calculate_lln] is greater than or equal to 0, whatever the sign of
    [adjustment_factor * (parameter - age*0.02 + height*0.05)], also when that
    product is infinite or not a number. *)
Theorem calculate_lln_nonneg (parameter age : Py.float) (gender : string)
    (height : Py.float) (ethnicity : string) :
  (calculate_lln parameter age gender height ethnicity >=? Py.of_int 0)%py = true.
Proof.
  unfold calculate_lln, Py.max0.
  match goal with |- context [Py.gt ?v ?z] => destruct (Py.gt v z) eqn:G end.
  - apply lt_le. exact G.
  - reflexivity.
Qed.

(** C6. [calculate_lln] applies the adjustment factor 1.0 for "Caucasian",
    0.88 for "African American", 0.94 for "Asian" and 1.0 for every other
    ethnicity: its value is [max(0, factor * (parameter - age*0.02 +
    height*0.05))] with that factor, so that for an ethnicity outside these
    three it returns what it returns for "Caucasian" on the same other
    arguments. *)
Theorem calculate_lln_adjustment (parameter age : Py.float) (gender : string)
    (height : Py.float) (ethnicity : string) :
  let adjusted (factor : Py.float) : Py.float :=
    Py.max0
      (factor
         * (parameter - (age * Py.decimal 2 100) + (height * Py.decimal 5 100)))%py in
  calculate_lln parameter age gender height "Caucasian" = adjusted (Py.of_int 1)
  /\ calculate_lln parameter age gender height "African American"
     = adjusted (Py.decimal 88 100)
  /\ calculate_lln parameter age gender height "Asian"
     = adjusted (Py.decimal 94 100)
  /\ (ethnicity <> "Caucasian" -> ethnicity <> "African American" ->
      ethnicity <> "Asian" ->
      calculate_lln parameter age gender height ethnicity
      = adjusted (Py.of_int 1)
      /\ calculate_lln parameter age gender height ethnicity
         = calculate_lln parameter age gender height "Caucasian").
Proof.
  intros adjusted. subst adjusted. cbv beta.
  split; [reflexivity|]. split; [reflexivity|]. split; [reflexivity|].
  intros C A S.
  assert (F : adjustment_factor ethnicity = Py.of_int 1).
  { unfold adjustment_factor.
    destruct (String.eqb_spec ethnicity "Caucasian"); [contradiction|].
    destruct (String.eqb_spec ethnicity "African American"); [contradiction|].
    destruct (String.eqb_spec ethnicity "Asian"); [contradiction|].
    reflexivity. }
  unfold calculate_lln. rewrite F. split; reflexivity.
Qed.

Lemma calculate_lln_adjustment_witness :
  calculate_lln (Py.of_int 1) (Py.of_int 30) "Male" (Py.of_int 170) "Other"
  = calculate_lln (Py.of_int 1) (Py.of_int 30) "Male" (Py.of_int 170) "Caucasian"
  /\ Py.format_2f
       (calculate_lln (Py.of_int 1) (Py.of_int 30) "Male" (Py.of_int 170) "Other")
     = "8.90"
  /\ Py.format_2f
       (calculate_lln (Py.of_int 1) (Py.of_int 30) "Male" (Py.of_int 170)
          "African American") = "7.83"
  /\ Py.format_2f
       (calculate_lln (Py.of_int 1) (Py.of_int 30) "Male" (Py.of_int 170) "Asian")
     = "8.37".
Proof.
  destruct (calculate_lln_adjustment (Py.of_int 1) (Py.of_int 30) "Male"
              (Py.of_int 170) "Other") as (_ & B & A & H).
  assert (FL := H ltac:(discriminate) ltac:(discriminate) ltac:(discriminate)).
  destruct FL as [F L].
  split; [exact L|]. rewrite F, B, A.
  repeat split; vm_compute; reflexivity.
Defined.

(** C7. The value of [calculate_lln] does not depend on the gender: two
    calls that differ in the gender only return equal values. *)
Theorem calculate_lln_gender_independent (gender1 gender2 : string)
    (parameter age height : Py.float) (ethnicity : string) :
  calculate_lln parameter age gender1 height ethnicity
  = calculate_lln parameter age gender2 height ethnicity.
Proof. reflexivity. Qed.

(** ** The interpreter *)

(** C1, as claimed, fails: a 30-year-old of 170 cm has the cutoff
    [1.0 - 0.6 + 8.5 = 8.9], the ratio 1.0 is below it and the obstructive
    lines come out instead of the fallback. *)
Lemma normal_values_obstructive_at_170cm :
  interpret_pft (Py.of_int 100) (Py.of_int 100) (Py.of_int 1) (Py.of_int 30)
    "Male" (Py.of_int 170) "Caucasian" None None None None None
  = ["Obstructive pattern detected (LLN-adjusted cutoff: 8.90).";
     "Severity: Mild obstruction.";
     "Next steps: Consider a short-acting beta-agonist (e.g., albuterol). Reassess if symptoms persist."]
  /\ interpret_pft (Py.of_int 100) (Py.of_int 100) (Py.of_int 1) (Py.of_int 30)
       "Male" (Py.of_int 170) "Caucasian" None None None None None
     <> ["Normal PFT values.";
         "Next steps: No action needed. Encourage routine follow-up if indicated."].
Proof.
  assert (E : interpret_pft (Py.of_int 100) (Py.of_int 100) (Py.of_int 1)
                (Py.of_int 30) "Male" (Py.of_int 170) "Caucasian"
                None None None None None
              = ["Obstructive pattern detected (LLN-adjusted cutoff: 8.90).";
                 "Severity: Mild obstruction.";
                 "Next steps: Consider a short-acting beta-agonist (e.g., albuterol). Reassess if symptoms persist."])
    by (vm_compute; reflexivity).
  split; [exact E | rewrite E; discriminate].
Qed.

(** C1, amended.  For fev1 = 100, fvc = 100, ratio 1.0 and no optional
    measurement, [interpret_pft] returns exactly the two fallback lines for
    every age, gender, height and ethnicity whose computed cutoff is not
    above the ratio, that is whenever [1.0 < LLN] is false; when the cutoff
    is above 1.0 it returns instead the obstructive line with that cutoff
    followed by the two lines of the mild band. *)
Theorem normal_values_fallback (age : Py.float) (gender : string)
    (height : Py.float) (ethnicity : string) :
  ((Py.of_int 1 <? calculate_lln (Py.of_int 1) age gender height ethnicity)%py
     = false ->
   interpret_pft (Py.of_int 100) (Py.of_int 100) (Py.of_int 1) age gender height
     ethnicity None None None None None
   = ["Normal PFT values.";
      "Next steps: No action needed. Encourage routine follow-up if indicated."])
  /\ ((Py.of_int 1 <? calculate_lln (Py.of_int 1) age gender height ethnicity)%py
        = true ->
      interpret_pft (Py.of_int 100) (Py.of_int 100) (Py.of_int 1) age gender
        height ethnicity None None None None None
      = ["Obstructive pattern detected (LLN-adjusted cutoff: "
           ++ Py.format_2f
                (calculate_lln (Py.of_int 1) age gender height ethnicity)
           ++ ").";
         "Severity: Mild obstruction.";
         "Next steps: Consider a short-acting beta-agonist (e.g., albuterol). Reassess if symptoms persist."]).
Proof.
  assert (F : (Py.of_int 100 <? Py.of_int 80)%py = false)
    by (vm_compute; reflexivity).
  assert (G : (Py.of_int 100 >=? Py.of_int 70)%py = true)
    by (vm_compute; reflexivity).
  split; intros L; rewrite interpret_pft_rules;
    unfold pattern_lines, obstructive_lines, obstructive_line, severity_lines,
      restrictive_lines, mixed_lines;
    rewrite L, F, ?G, ?andb_false_r; reflexivity.
Qed.

Lemma normal_values_fallback_witness :
  interpret_pft (Py.of_int 100) (Py.of_int 100) (Py.of_int 1) (Py.of_int 60)
    "Female" (Py.of_int 20) "Asian" None None None None None
  = ["Normal PFT values.";
     "Next steps: No action needed. Encourage routine follow-up if indicated."]
  /\ interpret_pft (Py.of_int 100) (Py.of_int 100) (Py.of_int 1) (Py.of_int 45)
       "Female" (Py.of_int 165) "African American" None None None None None
     = ["Obstructive pattern detected (LLN-adjusted cutoff: 7.35).";
        "Severity: Mild obstruction.";
        "Next steps: Consider a short-acting beta-agonist (e.g., albuterol). Reassess if symptoms persist."].
Proof.
  split.
  - apply (proj1 (normal_values_fallback (Py.of_int 60) "Female" (Py.of_int 20)
                    "Asian")).
    vm_compute; reflexivity.
  - rewrite (proj2 (normal_values_fallback (Py.of_int 45) "Female"
                      (Py.of_int 165) "African American"))
      by (vm_compute; reflexivity).
    vm_compute. reflexivity.
Defined.

(** What [severity_lines] contributes to the bands, branch by branch. *)
Lemma severity_bands_of_lines (fev1 : Py.float) :
  severity_bands (severity_lines fev1)
  = if (fev1 >=? Py.of_int 70)%py then ["Severity: Mild obstruction."]
    else if (Py.of_int 50 <=? fev1)%py && (fev1 <? Py.of_int 70)%py
         then ["Severity: Moderate obstruction."]
    else if (fev1 <? Py.of_int 50)%py then ["Severity: Severe obstruction."]
    else [].
Proof.
  unfold severity_lines.
  destruct (fev1 >=? Py.of_int 70)%py; [reflexivity|].
  destruct ((Py.of_int 50 <=? fev1)%py && (fev1 <? Py.of_int 70)%py); [reflexivity|].
  destruct (fev1 <? Py.of_int 50)%py; reflexivity.
Qed.

Lemma below_50_not_above_70 (fev1 : Py.float) :
  (fev1 <? Py.of_int 50)%py = true -> (fev1 >=? Py.of_int 70)%py = false.
Proof.
  intros L. destruct (fev1 >=? Py.of_int 70)%py eqn:G; [|reflexivity].
  assert (C : (Py.of_int 70 <? Py.of_int 50)%py = true)
    by exact (le_lt_trans _ _ _ G L).
  vm_compute in C. discriminate C.
Qed.

Lemma negative_below_50 (fev1 : Py.float) :
  (fev1 <? Py.of_int 0)%py = true -> (fev1 <? Py.of_int 50)%py = true.
Proof.
  intros L. apply (le_lt_trans _ (Py.of_int 0)).
  - apply lt_le. exact L.
  - vm_compute. reflexivity.
Qed.

(** C2, as claimed, fails in its last part: with a negative fev1 the first two
    tests fail and [fev1 < 50] holds, so the Severe band is emitted. *)
Lemma negative_fev1_is_graded_severe :
  (Py.of_int (-5) <? Py.of_int 0)%py = true
  /\ (Py.of_int 1
        <? calculate_lln (Py.of_int 1) (Py.of_int 30) "Male" (Py.of_int 170)
             "Caucasian")%py = true
  /\ severity_bands
       (interpret_pft (Py.of_int (-5)) (Py.of_int 100) (Py.of_int 1)
          (Py.of_int 30) "Male" (Py.of_int 170) "Caucasian"
          None None None None None)
     = ["Severity: Severe obstruction."].
Proof. repeat split; vm_compute; reflexivity. Qed.

(** C2, amended.  When the obstructive check fires, the bands among the
    output lines are exactly one: Mild for [fev1 >= 70], Moderate for
    [50 <= fev1 < 70], Severe for [fev1 < 50], which takes in every negative
    fev1; every fev1 that is a number falls in one of the three ranges, and
    only a fev1 that is not a number gets no band. *)
Theorem severity_band_by_range (fev1 fvc fev1_fvc age : Py.float)
    (gender : string) (height : Py.float) (ethnicity : string)
    (dlco_sb dl_va va_sb ivc_sb bht : option Py.float) :
  (fev1_fvc <? calculate_lln (Py.of_int 1) age gender height ethnicity)%py = true ->
  let bands :=
    severity_bands
      (interpret_pft fev1 fvc fev1_fvc age gender height ethnicity
         dlco_sb dl_va va_sb ivc_sb bht) in
  ((fev1 >=? Py.of_int 70)%py = true -> bands = ["Severity: Mild obstruction."])
  /\ ((Py.of_int 50 <=? fev1)%py = true /\ (fev1 <? Py.of_int 70)%py = true ->
      bands = ["Severity: Moderate obstruction."])
  /\ ((fev1 <? Py.of_int 50)%py = true -> bands = ["Severity: Severe obstruction."])
  /\ ((fev1 <? Py.of_int 0)%py = true -> bands = ["Severity: Severe obstruction."])
  /\ (Py.is_nan fev1 = false ->
      (fev1 >=? Py.of_int 70)%py = true
      \/ ((Py.of_int 50 <=? fev1)%py = true /\ (fev1 <? Py.of_int 70)%py = true)
      \/ (fev1 <? Py.of_int 50)%py = true)
  /\ (Py.is_nan fev1 = true -> bands = []).
Proof.
  intros L bands. subst bands.
  rewrite (severity_bands_obstructive _ _ _ _ _ _ _ _ _ _ _ _ L),
    severity_bands_of_lines.
  assert (Severe : (fev1 <? Py.of_int 50)%py = true ->
            (if (fev1 >=? Py.of_int 70)%py then ["Severity: Mild obstruction."]
             else if (Py.of_int 50 <=? fev1)%py && (fev1 <? Py.of_int 70)%py
                  then ["Severity: Moderate obstruction."]
             else if (fev1 <? Py.of_int 50)%py
                  then ["Severity: Severe obstruction."]
             else []) = ["Severity: Severe obstruction."]).
  { intros C. rewrite (below_50_not_above_70 _ C), C.
    pose proof (lt_not_ge _ _ C) as G. unfold Py.ge in G.
    change (SFleb (Py.of_int 50) fev1) with (Py.of_int 50 <=? fev1)%py in G.
    now rewrite G. }
  repeat apply conj.
  - intros A. now rewrite A.
  - intros [B1 B2]. rewrite (lt_not_ge _ _ B2), B1, B2. reflexivity.
  - exact Severe.
  - intros N. apply Severe, negative_below_50, N.
  - intros N.
    destruct (lt_or_ge fev1 (Py.of_int 70) N eq_refl) as [B2|A]; [|now left].
    destruct (lt_or_ge fev1 (Py.of_int 50) N eq_refl) as [C|B1]; [now right; right|].
    right; left. split; [exact B1 | exact B2].
  - intros N.
    destruct (nan_compares_false fev1 (Py.of_int 70) N) as (L70 & _ & _ & G70).
    destruct (nan_compares_false fev1 (Py.of_int 50) N) as (L50 & _ & _ & _).
    rewrite G70, L70, L50, andb_false_r. reflexivity.
Qed.

Lemma severity_band_by_range_witness :
  (Py.of_int 1
     <? calculate_lln (Py.of_int 1) (Py.of_int 30) "Male" (Py.of_int 170)
          "Caucasian")%py = true
  /\ (Py.of_int 60 <? Py.of_int 70)%py = true
  /\ severity_bands
       (interpret_pft (Py.of_int 60) (Py.of_int 100) (Py.of_int 1)
          (Py.of_int 30) "Male" (Py.of_int 170) "Caucasian"
          None None None None None)
     = ["Severity: Moderate obstruction."].
Proof.
  split; [vm_compute; reflexivity|]. split; [vm_compute; reflexivity|].
  apply (severity_band_by_range (Py.of_int 60) (Py.of_int 100) (Py.of_int 1)
           (Py.of_int 30) "Male" (Py.of_int 170) "Caucasian"
           None None None None None).
  - vm_compute; reflexivity.
  - split; vm_compute; reflexivity.
Defined.

(** C3. No output of [interpret_pft] has both the restrictive and the mixed
    line: the first needs [fev1_fvc >= LLN], the second [fev1_fvc < LLN]. *)
Theorem restrictive_mixed_exclusive (fev1 fvc fev1_fvc age : Py.float)
    (gender : string) (height : Py.float) (ethnicity : string)
    (dlco_sb dl_va va_sb ivc_sb bht : option Py.float) :
  ~ (In "Restrictive pattern detected."
       (interpret_pft fev1 fvc fev1_fvc age gender height ethnicity
          dlco_sb dl_va va_sb ivc_sb bht)
     /\ In "Mixed obstructive and restrictive pattern detected."
          (interpret_pft fev1 fvc fev1_fvc age gender height ethnicity
             dlco_sb dl_va va_sb ivc_sb bht)).
Proof.
  intros [R M].
  apply restrictive_line_rule in R. apply mixed_line_rule in M.
  destruct R as [_ G], M as [L _].
  rewrite (lt_not_ge _ _ L) in G. discriminate G.
Qed.

(** ** Lemmas: the interpreter over list objects *)

Lemma update_last (f : list string -> list string) (h : Obj.heap)
    (l : list string) :
  Obj.update (List.length h) f (h ++ [l])%list = (h ++ [f l])%list.
Proof. induction h as [|x h IH]; cbn; [reflexivity | now rewrite IH]. Qed.

Lemma content_last (h : Obj.heap) (l : list string) :
  Obj.content (h ++ [l])%list (List.length h) = Some l.
Proof.
  unfold Obj.content. rewrite nth_error_app2 by lia.
  now rewrite Nat.sub_diag.
Qed.

Lemma content_before (h : Obj.heap) (l : list string) (r : Obj.ref) :
  (r < List.length h)%nat -> Obj.content (h ++ [l])%list r = Obj.content h r.
Proof. intros B. unfold Obj.content. now rewrite nth_error_app1. Qed.

Lemma appends_ret (r : Obj.ref) : appends (Obj.ret tt) r [].
Proof. intros h l _. unfold Obj.ret. now rewrite app_nil_r. Qed.

Lemma appends_append (r : Obj.ref) (line : string) :
  appends (Obj.list_append r line) r [line].
Proof.
  intros h l <-. unfold Obj.list_append. now rewrite update_last.
Qed.

Lemma appends_seq (m : Obj.M unit) (k : unit -> Obj.M unit) (r : Obj.ref)
    (xs ys : list string) :
  appends m r xs -> appends (k tt) r ys -> appends (Obj.bind m k) r (xs ++ ys)%list.
Proof.
  intros Hm Hk h l E. unfold Obj.bind.
  rewrite (Hm h l E), (Hk h (l ++ xs)%list E). now rewrite app_assoc.
Qed.

Lemma appends_if (c : bool) (m1 m2 : Obj.M unit) (r : Obj.ref)
    (xs ys : list string) :
  appends m1 r xs -> appends m2 r ys ->
  appends (if c then m1 else m2) r (if c then xs else ys).
Proof. now destruct c. Qed.

Lemma appends_option (o : option Py.float) (f : Py.float -> Obj.M unit)
    (r : Obj.ref) (g : Py.float -> list string) :
  (forall x, appends (f x) r (g x)) ->
  appends (match o with Some x => f x | None => Obj.ret tt end) r
    (match o with Some x => g x | None => [] end).
Proof. intros H. destruct o; [apply H | apply appends_ret]. Qed.

Ltac appends_steps :=
  repeat first
    [ apply appends_append
    | apply appends_ret
    | eapply appends_seq
    | eapply appends_if
    | eapply appends_option; intros ].

Lemma fallback_run (r : Obj.ref) (h : Obj.heap) (l : list string) :
  List.length h = r ->
  (empty <- Obj.list_not r ;;
   (if empty then
      Obj.list_append r "Normal PFT values." ;;;
      Obj.list_append r "Next steps: No action needed. Encourage routine follow-up if indicated."
    else Obj.ret tt) ;;;
   Obj.ret r) (h ++ [l])%list
  = (r, (h ++ [fallback l])%list).
Proof.
  intros <-. unfold Obj.bind at 1. unfold Obj.list_not.
  fold (Obj.content (h ++ [l])%list (List.length h)). rewrite content_last.
  destruct l as [|x l].
  - unfold Obj.bind, Obj.list_append, Obj.ret. now rewrite !update_last.
  - reflexivity.
Qed.

Lemma bind_appends (m : Obj.M unit) (k : unit -> Obj.M Obj.ref) (r : Obj.ref)
    (xs : list string) (h : Obj.heap) (l : list string) :
  appends m r xs -> List.length h = r ->
  Obj.bind m k (h ++ [l])%list = k tt (h ++ [(l ++ xs)%list])%list.
Proof. intros Hm E. unfold Obj.bind. now rewrite (Hm h l E). Qed.

Lemma interpret_pft_object_run fev1 fvc fev1_fvc age gender height ethnicity
    dlco_sb dl_va va_sb ivc_sb bht (h : Obj.heap) :
  interpret_pft_object fev1 fvc fev1_fvc age gender height ethnicity
    dlco_sb dl_va va_sb ivc_sb bht h
  = (List.length h,
     (h ++ [interpret_pft fev1 fvc fev1_fvc age gender height ethnicity
              dlco_sb dl_va va_sb ivc_sb bht])%list).
Proof.
  rewrite interpret_pft_rules.
  unfold interpret_pft_object.
  unfold Obj.bind at 1. unfold Obj.new_list.
  cbv zeta.
  set (lln := calculate_lln (Py.of_int 1) age gender height ethnicity).
  set (r := List.length h).
  do 8 (erewrite bind_appends; [| appends_steps | reflexivity]).
  rewrite fallback_run by reflexivity.
  do 2 f_equal. f_equal.
  unfold pattern_lines, diffusion_lines, obstructive_lines, obstructive_line,
    severity_lines, restrictive_lines, mixed_lines, dlco_lines, info_line.
  cbn [app]. rewrite <- !app_assoc. reflexivity.
Qed.

(** C8. [interpret_pft] is deterministic: a call builds its lines in a list
    object of its own, so two calls with identical inputs yield the same
    sequence, line for line and in the same order, whether the second call
    follows the first or starts from any other heap; the second call
    returns another object, leaves the result of the first as it was, and
    no call changes an object that existed before it. *)
Theorem interpret_deterministic (i : pft_input) (h h' : Obj.heap) :
  let '(r1, h1) := interpret_object i h in
  let '(r2, h2) := interpret_object i h1 in
  let '(r3, h3) := interpret_object i h' in
  Obj.content h1 r1 = Some (interpret i)
  /\ Obj.content h2 r2 = Obj.content h1 r1
  /\ Obj.content h3 r3 = Obj.content h1 r1
  /\ Obj.content h2 r1 = Obj.content h1 r1
  /\ r1 <> r2
  /\ (forall r, (r < List.length h)%nat -> Obj.content h1 r = Obj.content h r).
Proof.
  unfold interpret_object, interpret.
  rewrite !interpret_pft_object_run.
  rewrite !content_last.
  split; [reflexivity|]. split; [reflexivity|]. split; [reflexivity|].
  split; [|split].
  - rewrite content_before by (rewrite length_app; cbn; lia).
    apply content_last.
  - rewrite length_app. cbn. lia.
  - intros r B. now apply content_before.
Qed.

Lemma interpret_deterministic_witness :
  let i :=
    {| in_fev1 := Py.of_int 60; in_fvc := Py.of_int 70;
       in_fev1_fvc := Py.decimal 65 100; in_age := Py.of_int 30;
       in_gender := "Male"; in_height := Py.of_int 170;
       in_ethnicity := "Asian"; in_dlco_sb := None; in_dl_va := None;
       in_va_sb := None; in_ivc_sb := None; in_bht := None |} in
  let first := interpret_object i [["kept"]] in
  let second := interpret_object i (snd first) in
  fst first = 1%nat /\ fst second = 2%nat
  /\ Obj.content (snd second) 0%nat = Some ["kept"]
  /\ Obj.content (snd second) 1%nat = Some (interpret i)
  /\ Obj.content (snd second) 2%nat = Some (interpret i).
Proof.
  intros i first second.
  generalize (interpret_deterministic i [["kept"]] []).
  subst first second i. vm_compute.
  intros (First & Second & _ & Kept & _ & _).
  split; [reflexivity|]. split; [reflexivity|]. split; [reflexivity|].
  split; [exact First | exact Kept].
Defined.

(** C10. An output with the mixed line also has the obstructive line: the
    mixed rule needs [fev1_fvc < LLN], which is the obstructive rule's test. *)
Theorem mixed_implies_obstructive (fev1 fvc fev1_fvc age : Py.float)
    (gender : string) (height : Py.float) (ethnicity : string)
    (dlco_sb dl_va va_sb ivc_sb bht : option Py.float) :
  In "Mixed obstructive and restrictive pattern detected."
    (interpret_pft fev1 fvc fev1_fvc age gender height ethnicity
       dlco_sb dl_va va_sb ivc_sb bht) ->
  In ("Obstructive pattern detected (LLN-adjusted cutoff: "
        ++ Py.format_2f (calculate_lln (Py.of_int 1) age gender height ethnicity)
        ++ ").")
    (interpret_pft fev1 fvc fev1_fvc age gender height ethnicity
       dlco_sb dl_va va_sb ivc_sb bht)
  /\ exists line,
       In line
         (interpret_pft fev1 fvc fev1_fvc age gender height ethnicity
            dlco_sb dl_va va_sb ivc_sb bht)
       /\ is_obstructive_line line = true.
Proof.
  intros M. apply mixed_line_rule in M. destruct M as [L _].
  rewrite (obstructive_line_first _ _ _ _ _ _ _ _ _ _ _ _ L).
  split; [now left|].
  eexists. split; [now left|]. apply obstructive_line_is_obstructive.
Qed.

Lemma mixed_implies_obstructive_witness :
  In "Mixed obstructive and restrictive pattern detected."
    (interpret_pft (Py.of_int 60) (Py.of_int 70) (Py.decimal 65 100)
       (Py.of_int 30) "Male" (Py.of_int 170) "Asian" None None None None None)
  /\ In "Obstructive pattern detected (LLN-adjusted cutoff: 8.37)."
       (interpret_pft (Py.of_int 60) (Py.of_int 70) (Py.decimal 65 100)
          (Py.of_int 30) "Male" (Py.of_int 170) "Asian" None None None None None).
Proof.
  assert (M : In "Mixed obstructive and restrictive pattern detected."
                (interpret_pft (Py.of_int 60) (Py.of_int 70) (Py.decimal 65 100)
                   (Py.of_int 30) "Male" (Py.of_int 170) "Asian"
                   None None None None None))
    by (vm_compute; tauto).
  split; [exact M|].
  exact (proj1 (mixed_implies_obstructive _ _ _ _ _ _ _ _ _ _ _ _ M)).
Defined.

Lemma in_zrange (n : nat) (z : Z) : 0 <= z < Z.of_nat n -> In z (zrange n).
Proof.
  intros B. unfold zrange. apply in_map_iff.
  exists (Z.to_nat z). split; [lia|]. apply in_seq. lia.
Qed.

Lemma caucasian_cutoff_eq (age height : Py.float) (gender : string) :
  calculate_lln (Py.of_int 1) age gender height "Caucasian"
  = caucasian_cutoff age height.
Proof.
  assert (E0 : Py.of_int 0 = float_0) by reflexivity.
  assert (E1 : Py.of_int 1 = float_1) by reflexivity.
  assert (E2 : Py.decimal 2 100 = float_0_02) by (vm_compute; reflexivity).
  assert (E5 : Py.decimal 5 100 = float_0_05) by (vm_compute; reflexivity).
  assert (EA : adjustment_factor "Caucasian" = float_1) by reflexivity.
  unfold calculate_lln, caucasian_cutoff, Py.max0.
  rewrite EA, E0, E1, E2, E5. reflexivity.
Qed.

(** The test [LLN > 1] run over every Caucasian patient of whole-number age
    and height with [height > 0.4 * age], that is [2 * age < 5 * height]. *)
Lemma whole_grid_checked :
  forallb
    (fun age_years =>
       forallb
         (fun height_cm =>
            implb (2 * age_years <? 5 * height_cm)%Z
              (caucasian_cutoff (Py.of_int age_years) (Py.of_int height_cm)
                 >? float_1)%py)
         (zrange 255))
    (zrange 121) = true.
Proof. vm_compute. reflexivity. Qed.

Lemma implb_elim (b c : bool) : implb b c = true -> b = true -> c = true.
Proof. destruct b; [trivial | discriminate]. Qed.

Lemma whole_patient_cutoff (age_years height_cm : Z) (gender : string) :
  0 <= age_years <= 120 -> 0 <= height_cm <= 254 ->
  2 * age_years < 5 * height_cm ->
  (calculate_lln (Py.of_int 1) (Py.of_int age_years) gender
     (Py.of_int height_cm) "Caucasian" >? Py.of_int 1)%py = true.
Proof.
  intros A H C.
  assert (Ia : In age_years (zrange 121)) by (apply in_zrange; lia).
  assert (Ih : In height_cm (zrange 255)) by (apply in_zrange; lia).
  assert (E1 : Py.of_int 1 = float_1) by reflexivity.
  rewrite caucasian_cutoff_eq, E1.
  apply Z.ltb_lt in C.
  exact (implb_elim _ _
           (proj1 (forallb_forall _ _)
              (proj1 (forallb_forall _ _) whole_grid_checked age_years Ia)
              height_cm Ih) C).
Qed.

(** *** A bound from below on the rounded operations

    The cutoff of a patient whose height is given in hundredths of a
    centimetre is bounded from below through each rounding: a quotient, a
    product or a sum whose exact value is at least a normal number rounds to
    at least that number. *)
Lemma digits2_bounds (p : positive) :
  2 ^ (Zpos (digits2_pos p) - 1) <= Zpos p < 2 ^ Zpos (digits2_pos p).
Proof.
  induction p as [p IH|p IH|]; simpl digits2_pos.
  - rewrite Pos2Z.inj_succ. change (Zpos p~1) with (2 * Zpos p + 1).
    replace (Z.succ (Zpos (digits2_pos p)) - 1)
      with (Z.succ (Zpos (digits2_pos p) - 1)) by lia.
    rewrite !Z.pow_succ_r by lia.
    generalize dependent (2 ^ (Zpos (digits2_pos p) - 1)).
    generalize (2 ^ Zpos (digits2_pos p)). intros; lia.
  - rewrite Pos2Z.inj_succ. change (Zpos p~0) with (2 * Zpos p).
    replace (Z.succ (Zpos (digits2_pos p)) - 1)
      with (Z.succ (Zpos (digits2_pos p) - 1)) by lia.
    rewrite !Z.pow_succ_r by lia.
    generalize dependent (2 ^ (Zpos (digits2_pos p) - 1)).
    generalize (2 ^ Zpos (digits2_pos p)). intros; lia.
  - cbn. lia.
Qed.

Lemma digits2_unique (p : positive) (d : Z) :
  2 ^ (d - 1) <= Zpos p < 2 ^ d -> Zpos (digits2_pos p) = d.
Proof.
  intros [L U]. destruct (digits2_bounds p) as [L' U'].
  assert (0 < d).
  { destruct (Z.lt_trichotomy d 0) as [N|[N|N]]; [|subst d; cbn in U; lia|lia].
    rewrite Z.pow_neg_r in U by lia. lia. }
  assert (d - 1 < Zpos (digits2_pos p))
    by (apply (Z.pow_lt_mono_r_iff 2); lia).
  assert (Zpos (digits2_pos p) - 1 < d)
    by (apply (Z.pow_lt_mono_r_iff 2); lia).
  lia.
Qed.

Lemma digits2_bounds_53 (p : positive) :
  Zpos (digits2_pos p) = 53 -> Zpos p < 2 ^ 53.
Proof. intros D. destruct (digits2_bounds p) as [_ U]. rewrite D in U. exact U. Qed.

Lemma shr_m_shr_1 (mrs : shr_record) :
  0 <= shr_m mrs -> shr_m (shr_1 mrs) = shr_m mrs / 2.
Proof.
  destruct mrs as [m r s]. cbn [shr_m]. intros N.
  rewrite <- Z.div2_div.
  destruct m as [|[p|p|]|p]; [reflexivity..|lia].
Qed.

Lemma shr_m_iter (n : positive) :
  forall mrs, 0 <= shr_m mrs ->
    shr_m (iter_pos shr_1 n mrs) = shr_m mrs / 2 ^ Zpos n.
Proof.
  induction n as [n IH|n IH|]; intros mrs N; cbn [iter_pos].
  - assert (N1 : 0 <= shr_m (shr_1 mrs))
      by (rewrite shr_m_shr_1 by trivial; apply Z.div_pos; lia).
    assert (N2 : 0 <= shr_m (iter_pos shr_1 n (shr_1 mrs)))
      by (rewrite IH by trivial; apply Z.div_pos; lia).
    rewrite IH, IH, shr_m_shr_1 by trivial.
    rewrite !Z.div_div by lia.
    f_equal. rewrite (Pos2Z.inj_xI n).
    replace (2 * Zpos n + 1) with (Z.succ (Zpos n + Zpos n)) by lia.
    rewrite Z.pow_succ_r, Z.pow_add_r by lia.
    lia.
  - assert (N2 : 0 <= shr_m (iter_pos shr_1 n mrs))
      by (rewrite IH by trivial; apply Z.div_pos; lia).
    rewrite IH, IH by trivial.
    rewrite !Z.div_div by lia.
    f_equal. rewrite (Pos2Z.inj_xO n).
    replace (2 * Zpos n) with (Zpos n + Zpos n) by lia.
    rewrite Z.pow_add_r by lia.
    lia.
  - rewrite shr_m_shr_1 by trivial. reflexivity.
Qed.

(** [shr] by [n] places divides the mantissa by [2^n]. *)
Lemma shr_spec (mrs : shr_record) (e n : Z) :
  0 <= shr_m mrs -> 0 <= n ->
  shr_m (fst (shr mrs e n)) = shr_m mrs / 2 ^ n /\ snd (shr mrs e n) = e + n.
Proof.
  intros N Hn. unfold shr.
  destruct n as [|p|p]; cbn [fst snd]; [|split; [apply shr_m_iter; exact N|reflexivity]|lia].
  change (2 ^ 0) with 1. rewrite Z.div_1_r. split; [reflexivity|lia].
Qed.

Lemma round_nearest_even_bounds (m : Z) (l : location) :
  m <= round_nearest_even m l <= m + 1.
Proof.
  destruct l as [|[| |]]; cbn [round_nearest_even]; [lia| |lia|lia].
  destruct (Z.even m); lia.
Qed.

Lemma fexp_normal (x : Z) : -1021 <= x -> fexp Py.prec Py.emax x = x - 53.
Proof. intros. unfold fexp, emin, Py.prec, Py.emax. lia. Qed.

Lemma normalb_intro (lo hi : Z) (m : positive) (e : Z) :
  2 ^ 52 <= Zpos m < 2 ^ 53 -> lo <= e <= hi ->
  normalb lo hi (S754_finite false m e) = true.
Proof.
  intros [M1 M2] [E1 E2]. unfold normalb.
  apply Z.leb_le in M1, E1, E2. apply Z.ltb_lt in M2.
  rewrite M1, M2, E1, E2. reflexivity.
Qed.

Lemma normalb_elim (lo hi : Z) (x : Py.float) :
  normalb lo hi x = true ->
  exists m e, x = S754_finite false m e
    /\ 2 ^ 52 <= Zpos m < 2 ^ 53 /\ lo <= e <= hi.
Proof.
  destruct x as [| | |[|] m e]; try discriminate. unfold normalb.
  rewrite !andb_true_iff, !Z.leb_le, !Z.ltb_lt.
  intros H. exists m, e. split; [reflexivity|]. lia.
Qed.

(** Rounding from below: [binary_round_aux] drops low bits and then rounds
    up or not, so the rounding of a value that is at least the normal number
    [mc * 2^ec] is a normal number that is at least [mc * 2^ec]. *)
Lemma round_from_below (M : positive) (e B mc ec : Z) (l : location) :
  -128 <= e -> B <= 1000 -> 2 ^ 52 <= Zpos M < 2 ^ (B - e) ->
  2 ^ 52 <= mc < 2 ^ 53 -> -128 <= ec ->
  mc * 2 ^ (ec + 128) <= Zpos M * 2 ^ (e + 128) ->
  normalb ec (B - 52)
    (binary_round_aux Py.prec Py.emax false (Zpos M) e l) = true
  /\ mc * 2 ^ (ec + 128)
     <= scaled (binary_round_aux Py.prec Py.emax false (Zpos M) e l).
Proof.
  intros He HB [L U] [C1 C2] Hc V.
  destruct (digits2_bounds M) as [DL DU].
  remember (Zpos (digits2_pos M)) as d eqn:Ed.
  assert (D1 : 53 <= d).
  { assert (52 < d) by (apply (Z.pow_lt_mono_r_iff 2); lia). lia. }
  assert (D2 : d <= B - e).
  { assert (0 <= B - e).
    { destruct (Z.le_gt_cases 0 (B - e)) as [G|G]; [exact G|].
      rewrite Z.pow_neg_r in U by lia. lia. }
    assert (d - 1 < B - e) by (apply (Z.pow_lt_mono_r_iff 2); lia).
    lia. }
  (* the exponent after the shift is at least [ec] *)
  assert (P : 0 < 2 ^ (e + 128)) by (apply Z.pow_pos_nonneg; lia).
  assert (Pc : 0 < 2 ^ (ec + 128)) by (apply Z.pow_pos_nonneg; lia).
  assert (D3 : ec <= d + e - 53).
  { destruct (Z.le_gt_cases ec (d + e - 53)) as [G|G]; [exact G|exfalso].
    assert (Zpos M * 2 ^ (e + 128) < 2 ^ d * 2 ^ (e + 128)) by nia.
    rewrite <- Z.pow_add_r in H by lia.
    assert (2 ^ (d + (e + 128)) <= 2 ^ (52 + (ec + 128)))
      by (apply Z.pow_le_mono_r; lia).
    rewrite (Z.pow_add_r 2 52) in H0 by lia. nia. }
  unfold binary_round_aux, shr_fexp.
  cbn [Zdigits2]. rewrite <- Ed.
  rewrite fexp_normal by lia.
  replace (d + e - 53 - e) with (d - 53) by lia.
  destruct (shr_spec (shr_record_of_loc (Zpos M) l) e (d - 53)) as [S1 S2];
    [destruct l as [|[| |]]; cbn; lia|lia|].
  destruct (shr (shr_record_of_loc (Zpos M) l) e (d - 53)) as [mrs e1].
  cbn [fst snd] in S1, S2.
  replace (shr_m (shr_record_of_loc (Zpos M) l)) with (Zpos M) in S1
    by (destruct l as [|[| |]]; reflexivity).
  assert (Q : 0 < 2 ^ (d - 53)) by (apply Z.pow_pos_nonneg; lia).
  assert (M1 : 2 ^ 52 <= shr_m mrs).
  { rewrite S1. apply Z.div_le_lower_bound; [exact Q|].
    rewrite <- Z.pow_add_r by lia.
    replace (d - 53 + 52) with (d - 1) by lia. exact DL. }
  assert (M2 : shr_m mrs < 2 ^ 53).
  { rewrite S1. apply Z.div_lt_upper_bound; [exact Q|].
    rewrite <- Z.pow_add_r by lia.
    replace (d - 53 + 53) with d by lia. exact DU. }
  assert (P1 : 0 < 2 ^ (e1 + 128)) by (apply Z.pow_pos_nonneg; lia).
  assert (V1 : mc * 2 ^ (ec + 128) <= shr_m mrs * 2 ^ (e1 + 128)).
  { destruct (Z.eq_dec ec e1) as [->|N].
    - apply Z.mul_le_mono_nonneg_r; [lia|].
      rewrite S1. apply Z.div_le_lower_bound; [exact Q|].
      apply (Z.mul_le_mono_pos_r _ _ (2 ^ (e + 128)) P).
      eapply Z.le_trans; [|exact V].
      replace (e1 + 128) with ((d - 53) + (e + 128)) by lia.
      rewrite (Z.pow_add_r 2 (d - 53) (e + 128)) by lia.
      apply Z.eq_le_incl. ring.
    - assert (2 ^ (ec + 128 + 1) <= 2 ^ (e1 + 128))
        by (apply Z.pow_le_mono_r; lia).
      rewrite Z.pow_add_r in H by lia. change (2 ^ 1) with 2 in H.
      change (2 ^ 53) with (2 * 2 ^ 52) in C2. nia. }
  destruct (round_nearest_even_bounds (shr_m mrs) (loc_of_shr_record mrs))
    as [R1 R2].
  destruct (round_nearest_even (shr_m mrs) (loc_of_shr_record mrs))
    as [|p|p] eqn:Er; [lia| |lia].
  cbn [Zdigits2 shr_record_of_loc].
  assert (Dp : Zpos (digits2_pos p) = 53 \/ Zpos p = 2 ^ 53).
  { destruct (Z.eq_dec (Zpos p) (2 ^ 53)) as [T|T]; [right; exact T|left].
    apply digits2_unique. change (53 - 1) with 52. lia. }
  assert (Dp' : 0 <= Zpos (digits2_pos p) - 53 <= 1).
  { destruct Dp as [T|T]; [lia|]. injection T as ->. cbn. lia. }
  rewrite fexp_normal by lia.
  replace (Zpos (digits2_pos p) + e1 - 53 - e1)
    with (Zpos (digits2_pos p) - 53) by lia.
  destruct (shr_spec {| shr_m := Zpos p; shr_r := false; shr_s := false |}
              e1 (Zpos (digits2_pos p) - 53)) as [S3 S4];
    [cbn; lia|lia|].
  destruct (shr {| shr_m := Zpos p; shr_r := false; shr_s := false |} e1
              (Zpos (digits2_pos p) - 53)) as [mrs2 e2].
  cbn [fst snd shr_m] in S3, S4.
  assert (F : 2 ^ 52 <= shr_m mrs2 < 2 ^ 53
              /\ shr_m mrs2 * 2 ^ (e2 + 128) = Zpos p * 2 ^ (e1 + 128)).
  { destruct Dp as [T|T].
    - rewrite T in S3, S4. change (2 ^ (53 - 53)) with 1 in S3.
      rewrite Z.div_1_r in S3. replace e2 with e1 by lia.
      rewrite S3. split; [|reflexivity].
      split; [lia|]. apply digits2_bounds_53. exact T.
    - injection T as ->. cbn in S3, S4. rewrite S3.
      replace (e2 + 128) with (1 + (e1 + 128)) by lia.
      rewrite Z.pow_add_r by lia. split; [cbn; lia|].
      change (2 ^ 1) with 2. lia. }
  destruct F as [[F1 F2] F3].
  destruct (shr_m mrs2) as [|m|m] eqn:Em; [lia| |lia].
  replace (e2 <=? Py.emax - Py.prec)%Z with true
    by (symmetry; apply Z.leb_le; unfold Py.emax, Py.prec; lia).
  split.
  - apply normalb_intro; lia.
  - unfold scaled. cbn [cond_Zopp]. rewrite F3. nia.
Qed.

Lemma normalb_weaken (lo hi lo' hi' : Z) (x : Py.float) :
  lo' <= lo -> hi <= hi' -> normalb lo hi x = true -> normalb lo' hi' x = true.
Proof.
  intros L H N.
  destruct (normalb_elim _ _ _ N) as (m & e & -> & M & E).
  apply normalb_intro; lia.
Qed.

Lemma scaled_normal (lo hi : Z) (x : Py.float) :
  -128 <= lo -> normalb lo hi x = true ->
  2 ^ (lo + 180) <= scaled x < 2 ^ (hi + 181).
Proof.
  intros L N.
  destruct (normalb_elim _ _ _ N) as (m & e & -> & [M1 M2] & [E1 E2]).
  unfold scaled. cbn [cond_Zopp].
  assert (2 ^ (lo + 128) <= 2 ^ (e + 128)) by (apply Z.pow_le_mono_r; lia).
  assert (2 ^ (e + 128) <= 2 ^ (hi + 128)) by (apply Z.pow_le_mono_r; lia).
  assert (0 < 2 ^ (lo + 128)) by (apply Z.pow_pos_nonneg; lia).
  replace (lo + 180) with (52 + (lo + 128)) by lia.
  replace (hi + 181) with (53 + (hi + 128)) by lia.
  rewrite (Z.pow_add_r 2 52), (Z.pow_add_r 2 53) by lia. nia.
Qed.

Lemma iter_xO_value (m d : positive) :
  Zpos (Pos.iter xO m d) = Zpos m * 2 ^ Zpos d.
Proof.
  rewrite Z.mul_comm. exact (Zpower.shift_pos_correct d m).
Qed.

Lemma shl_align_value (mx : positive) (ex ez : Z) :
  ez <= ex ->
  Zpos (fst (shl_align mx ex ez)) = Zpos mx * 2 ^ (ex - ez)
  /\ snd (shl_align mx ex ez) = ez.
Proof.
  intros H. unfold shl_align.
  destruct (ez - ex) as [|d|d] eqn:E; cbn [fst snd].
  - replace (ex - ez) with 0 by lia. lia.
  - lia.
  - replace (ex - ez) with (Zpos d) by lia.
    split; [apply iter_xO_value|reflexivity].
Qed.

(** [int] to [float], for a positive [int] below [2^15]. *)
Lemma of_int_from_below (k : Z) :
  0 < k < 2 ^ 15 ->
  normalb (-52) (-37) (Py.of_int k) = true
  /\ k * 2 ^ 128 <= scaled (Py.of_int k).
Proof.
  intros [K1 K2]. destruct k as [|p|p]; [lia| |lia].
  destruct (digits2_bounds p) as [DL DU].
  remember (Zpos (digits2_pos p)) as d eqn:Ed.
  assert (D1 : 1 <= d) by (subst d; lia).
  assert (D2 : d <= 15).
  { assert (d - 1 < 15) by (apply (Z.pow_lt_mono_r_iff 2); lia). lia. }
  unfold Py.of_int, binary_normalize, binary_round.
  rewrite <- Ed, fexp_normal by lia.
  destruct (shl_align_value p 0 (d + 0 - 53)) as [A1 A2]; [lia|].
  destruct (shl_align p 0 (d + 0 - 53)) as [mz ez].
  cbn [fst snd] in A1, A2. subst ez.
  replace (0 - (d + 0 - 53)) with (53 - d) in A1 by lia.
  assert (P : 0 < 2 ^ (53 - d)) by (apply Z.pow_pos_nonneg; lia).
  assert (B1 : 2 ^ 52 <= Zpos mz).
  { rewrite A1. replace 52 with ((d - 1) + (53 - d)) by lia.
    rewrite Z.pow_add_r by lia. nia. }
  assert (B2 : Zpos mz < 2 ^ 53).
  { rewrite A1. replace 53 with (d + (53 - d)) at 2 by lia.
    rewrite Z.pow_add_r by lia. nia. }
  assert (B3 : 2 ^ 53 <= 2 ^ (15 - (d + 0 - 53)))
    by (apply Z.pow_le_mono_r; lia).
  destruct (round_from_below mz (d + 0 - 53) 15 (Zpos mz) (d + 0 - 53) loc_Exact)
    as [N V]; try lia.
  split.
  - revert N. apply normalb_weaken; lia.
  - eapply Z.le_trans; [|exact V].
    rewrite A1, <- Z.mul_assoc, <- Z.pow_add_r by lia.
    replace (53 - d + (d + 0 - 53 + 128)) with 128 by lia. lia.
Qed.

(** Division of two normal numbers. *)
Lemma div_from_below (m1 m2 : positive) (e1 e2 B mc ec : Z) :
  2 ^ 52 <= Zpos m1 < 2 ^ 53 -> 2 ^ 52 <= Zpos m2 < 2 ^ 53 ->
  -128 <= e1 -> -128 <= e2 -> -128 <= e1 - e2 - 53 ->
  e1 - e2 + 1 <= B <= 1000 ->
  2 ^ 52 <= mc < 2 ^ 53 -> -128 <= ec ->
  mc * 2 ^ (ec + 128) * (Zpos m2 * 2 ^ (e2 + 128))
    <= Zpos m1 * 2 ^ (e1 + 128) * 2 ^ 128 ->
  normalb ec (B - 52)
    (SFdiv Py.prec Py.emax (S754_finite false m1 e1) (S754_finite false m2 e2))
  = true
  /\ mc * 2 ^ (ec + 128)
     <= scaled (SFdiv Py.prec Py.emax (S754_finite false m1 e1)
                  (S754_finite false m2 e2)).
Proof.
  intros [A1 A2] [B1 B2] E1 E2 E HB [C1 C2] Hc V.
  unfold SFdiv, SFdiv_core_binary. cbn [Zdigits2 xorb].
  rewrite (digits2_unique m1 53), (digits2_unique m2 53)
    by (change (53 - 1) with 52; lia).
  rewrite fexp_normal by lia.
  rewrite Z.min_l by lia.
  replace (e1 - e2 - (53 + e1 - (53 + e2) - 53)) with 53 by lia.
  cbv iota. rewrite Z.shiftl_mul_pow2 by lia.
  replace (53 + e1 - (53 + e2) - 53) with (e1 - e2 - 53) by lia.
  assert (Q : fst (Z.div_eucl (Zpos m1 * 2 ^ 53) (Zpos m2))
              = Zpos m1 * 2 ^ 53 / Zpos m2) by reflexivity.
  destruct (Z.div_eucl (Zpos m1 * 2 ^ 53) (Zpos m2)) as [q r].
  cbn [fst] in Q.
  assert (Q1 : 2 ^ 52 <= q).
  { rewrite Q. apply Z.div_le_lower_bound; [lia|].
    change (2 ^ 53) with (2 * 2 ^ 52) in *. nia. }
  assert (Q2 : q < 2 ^ 54).
  { rewrite Q. apply Z.div_lt_upper_bound; [lia|].
    change (2 ^ 54) with (2 * 2 ^ 53). nia. }
  destruct q as [|qp|qp]; [lia| |lia].
  assert (U : 2 ^ 54 <= 2 ^ (B - (e1 - e2 - 53)))
    by (apply Z.pow_le_mono_r; lia).
  apply round_from_below; try lia.
  set (e' := e1 - e2 - 53) in *.
  assert (P' : 0 < 2 ^ (e' + 128)) by (apply Z.pow_pos_nonneg; lia).
  assert (P2 : 0 < 2 ^ (e2 + 128)) by (apply Z.pow_pos_nonneg; lia).
  destruct (Z.le_gt_cases e' ec) as [G|G].
  - assert (Pc : 0 < 2 ^ (ec - e')) by (apply Z.pow_pos_nonneg; lia).
    assert (X1 : 2 ^ (ec + 128) = 2 ^ (ec - e') * 2 ^ (e' + 128))
      by (rewrite <- Z.pow_add_r by lia; f_equal; lia).
    assert (X2 : 2 ^ (e1 + 128) * 2 ^ 128
                 = 2 ^ 53 * 2 ^ (e' + 128) * 2 ^ (e2 + 128))
      by (rewrite <- !Z.pow_add_r by lia; f_equal; lia).
    assert (Y : mc * 2 ^ (ec - e') <= Zpos qp).
    { rewrite Q. apply Z.div_le_lower_bound; [lia|].
      apply (Z.mul_le_mono_pos_r _ _ (2 ^ (e' + 128) * 2 ^ (e2 + 128)));
        [nia|].
      rewrite X1 in V. rewrite <- (Z.mul_assoc (Zpos m1)), X2 in V.
      eapply Z.le_trans; [|eapply Z.le_trans; [exact V|]];
        apply Z.eq_le_incl; ring. }
    rewrite X1. nia.
  - assert (2 ^ (ec + 128 + 1) <= 2 ^ (e' + 128))
      by (apply Z.pow_le_mono_r; lia).
    rewrite Z.pow_add_r in H by lia. change (2 ^ 1) with 2 in H.
    change (2 ^ 53) with (2 * 2 ^ 52) in C2. nia.
Qed.

(** Product of two normal numbers. *)
Lemma mul_from_below (m1 m2 : positive) (e1 e2 B mc ec : Z) :
  2 ^ 52 <= Zpos m1 < 2 ^ 53 -> 2 ^ 52 <= Zpos m2 < 2 ^ 53 ->
  -128 <= e1 -> -128 <= e2 -> -128 <= e1 + e2 ->
  e1 + e2 + 106 <= B <= 1000 ->
  2 ^ 52 <= mc < 2 ^ 53 -> -128 <= ec ->
  mc * 2 ^ (ec + 128) * 2 ^ 128
    <= Zpos m1 * 2 ^ (e1 + 128) * (Zpos m2 * 2 ^ (e2 + 128)) ->
  normalb ec (B - 52) (S754_finite false m1 e1 * S754_finite false m2 e2)%py
  = true
  /\ mc * 2 ^ (ec + 128)
     <= scaled (S754_finite false m1 e1 * S754_finite false m2 e2)%py.
Proof.
  intros [A1 A2] [B1 B2] E1 E2 E HB [C1 C2] Hc V.
  unfold Py.mul, SFmul. cbn [xorb].
  assert (U : 2 ^ 106 <= 2 ^ (B - (e1 + e2)))
    by (apply Z.pow_le_mono_r; lia).
  assert (M1 : 2 ^ 104 <= Zpos (m1 * m2)).
  { rewrite Pos2Z.inj_mul. change (2 ^ 104) with (2 ^ 52 * 2 ^ 52). nia. }
  assert (M2 : Zpos (m1 * m2) < 2 ^ 106).
  { rewrite Pos2Z.inj_mul. change (2 ^ 106) with (2 ^ 53 * 2 ^ 53). nia. }
  apply round_from_below; try lia.
  apply (Z.mul_le_mono_pos_r _ _ (2 ^ 128)); [lia|].
  eapply Z.le_trans; [exact V|].
  assert (X : 2 ^ (e1 + e2 + 128) * 2 ^ 128
              = 2 ^ (e1 + 128) * 2 ^ (e2 + 128))
    by (rewrite <- !Z.pow_add_r by lia; f_equal; lia).
  rewrite Pos2Z.inj_mul, <- (Z.mul_assoc (Zpos m1 * Zpos m2)), X.
  apply Z.eq_le_incl. ring.
Qed.

Lemma above_oneb_intro (E : Z) (m : positive) (e : Z) :
  2 ^ 52 <= Zpos m < 2 ^ 53 -> -52 <= e <= E ->
  (e = -52 -> 2 ^ 52 < Zpos m) ->
  above_oneb E (S754_finite false m e) = true.
Proof.
  intros [M1 M2] [E1 E2] K. unfold above_oneb.
  apply Z.leb_le in M1, E1, E2. apply Z.ltb_lt in M2.
  rewrite M1, M2, E1, E2. cbn [andb].
  destruct (Z.ltb_spec (-52) e) as [G|G]; [reflexivity|].
  apply Z.leb_le in E1.
  cbn [orb]. apply Z.ltb_lt, K. lia.
Qed.

Lemma above_oneb_elim (E : Z) (x : Py.float) :
  above_oneb E x = true ->
  exists m e, x = S754_finite false m e
    /\ 2 ^ 52 <= Zpos m < 2 ^ 53 /\ -52 <= e <= E
    /\ (e = -52 -> 2 ^ 52 < Zpos m).
Proof.
  destruct x as [| | |[|] m e]; try discriminate. unfold above_oneb.
  rewrite !andb_true_iff, orb_true_iff.
  rewrite !Z.leb_le, !Z.ltb_lt.
  intros H. exists m, e. split; [reflexivity|]. lia.
Qed.

(** A normal number of value at least [1 + 2^-52] is above 1.0. *)
Lemma normal_above_one (lo hi : Z) (x : Py.float) :
  -128 <= lo -> normalb lo hi x = true ->
  (2 ^ 52 + 1) * 2 ^ 76 <= scaled x ->
  above_oneb hi x = true.
Proof.
  intros Hl N L.
  destruct (normalb_elim _ _ _ N) as (m & e & -> & [M1 M2] & [E1 E2]).
  unfold scaled in L. cbn [cond_Zopp] in L.
  assert (P : 0 < 2 ^ (e + 128)) by (apply Z.pow_pos_nonneg; lia).
  assert (G : -52 <= e).
  { destruct (Z.le_gt_cases (-52) e) as [G|G]; [exact G|].
    assert (2 ^ (e + 128) <= 2 ^ 75) by (apply Z.pow_le_mono_r; lia).
    change (2 ^ 76) with (2 * 2 ^ 75) in L.
    change (2 ^ 53) with (2 * 2 ^ 52) in M2. nia. }
  apply above_oneb_intro; [lia|lia|].
  intros ->. change (2 ^ (-52 + 128)) with (2 ^ 76) in *. nia.
Qed.

Lemma round_above_one (M : positive) (e B : Z) :
  -128 <= e <= -52 -> B <= 1000 ->
  (2 ^ 52 + 1) * 2 ^ (-52 - e) <= Zpos M < 2 ^ (B - e) ->
  above_oneb (B - 52)
    (binary_round_aux Py.prec Py.emax false (Zpos M) e loc_Exact) = true.
Proof.
  intros He HB [L U].
  assert (P : 1 <= 2 ^ (-52 - e)) by (apply (Z.pow_le_mono_r 2 0); lia).
  assert (P' : 0 < 2 ^ (e + 128)) by (apply Z.pow_pos_nonneg; lia).
  assert (M1 : 2 ^ 52 <= Zpos M) by nia.
  assert (C : 2 ^ 52 <= 2 ^ 52 + 1 < 2 ^ 53) by (cbn; lia).
  assert (V : (2 ^ 52 + 1) * 2 ^ (-52 + 128) <= Zpos M * 2 ^ (e + 128)).
  { change (-52 + 128) with 76.
    replace 76 with ((-52 - e) + (e + 128)) by lia.
    rewrite Z.pow_add_r, Z.mul_assoc by lia.
    exact (Z.mul_le_mono_nonneg_r _ _ _ (Z.lt_le_incl _ _ P') L). }
  destruct (round_from_below M e B (2 ^ 52 + 1) (-52) loc_Exact
              ltac:(lia) HB (conj M1 U) C ltac:(lia) V) as [N V'].
  apply (normal_above_one (-52) (B - 52)); [lia|exact N|exact V'].
Qed.

Lemma digits2_lower (p : positive) (e : Z) :
  e <= -52 -> (2 ^ 52 + 1) * 2 ^ (-52 - e) <= Zpos p ->
  1 - e <= Zpos (digits2_pos p).
Proof.
  intros He L.
  destruct (digits2_bounds p) as [_ DU].
  assert (P : 0 < 2 ^ (-52 - e)) by (apply Z.pow_pos_nonneg; lia).
  assert (2 ^ (- e) < 2 ^ Zpos (digits2_pos p)).
  { apply Z.le_lt_trans with (Zpos p); [|exact DU].
    replace (- e) with (52 + (-52 - e)) by lia.
    rewrite Z.pow_add_r by lia. nia. }
  assert (- e < Zpos (digits2_pos p)) by (apply (Z.pow_lt_mono_r_iff 2); lia).
  lia.
Qed.

Lemma round_digits (p : positive) (e : Z) :
  e <= -52 -> (2 ^ 52 + 1) * 2 ^ (-52 - e) <= Zpos p ->
  shl_align p e (fexp Py.prec Py.emax (Zpos (digits2_pos p) + e)) = (p, e).
Proof.
  intros He L.
  assert (D := digits2_lower p e He L).
  rewrite fexp_normal by lia.
  unfold shl_align.
  destruct (Zpos (digits2_pos p) + e - 53 - e) eqn:E; [reflexivity..|lia].
Qed.

(** Sum of a finite number and a positive one. *)
Lemma add_above_one (sb : bool) (mb mt : positive) (eb et B : Z) :
  -128 <= eb -> -128 <= et -> Z.min eb et <= -52 -> 0 <= B <= 1000 ->
  (2 ^ 52 + 1) * 2 ^ 76
    <= scaled (S754_finite sb mb eb) + scaled (S754_finite false mt et)
    < 2 ^ (B + 128) ->
  above_oneb (B - 52)
    (S754_finite sb mb eb + S754_finite false mt et)%py = true.
Proof.
  intros Hb Ht Hz HB [L U].
  unfold Py.add, SFadd.
  set (ez := Z.min eb et) in *.
  rewrite (proj1 (shl_align_value mb eb ez ltac:(unfold ez; lia))).
  rewrite (proj1 (shl_align_value mt et ez ltac:(unfold ez; lia))).
  set (M := cond_Zopp sb (Zpos mb * 2 ^ (eb - ez))
            + cond_Zopp false (Zpos mt * 2 ^ (et - ez))).
  assert (HM : M * 2 ^ (ez + 128)
               = scaled (S754_finite sb mb eb) + scaled (S754_finite false mt et)).
  { unfold M, scaled.
    replace (eb + 128) with ((eb - ez) + (ez + 128)) by lia.
    replace (et + 128) with ((et - ez) + (ez + 128)) by lia.
    rewrite (Z.pow_add_r 2 (eb - ez) (ez + 128)) by (unfold ez; lia).
    rewrite (Z.pow_add_r 2 (et - ez) (ez + 128)) by (unfold ez; lia).
    destruct sb; cbn [cond_Zopp]; ring. }
  rewrite <- HM in L, U.
  assert (P : 0 < 2 ^ (ez + 128)) by (apply Z.pow_pos_nonneg; unfold ez; lia).
  assert (L' : (2 ^ 52 + 1) * 2 ^ (-52 - ez) <= M).
  { apply (Z.mul_le_mono_pos_r _ _ (2 ^ (ez + 128)) P).
    rewrite <- Z.mul_assoc, <- Z.pow_add_r by (unfold ez; lia).
    replace (-52 - ez + (ez + 128)) with 76 by lia. exact L. }
  assert (U' : M < 2 ^ (B - ez)).
  { apply (Z.mul_lt_mono_pos_r (2 ^ (ez + 128)) _ _ P).
    rewrite <- Z.pow_add_r by (unfold ez; lia).
    replace (B - ez + (ez + 128)) with (B + 128) by lia. exact U. }
  assert (P' : 0 < 2 ^ (-52 - ez)) by (apply Z.pow_pos_nonneg; lia).
  destruct M as [|p|p]; [lia| |lia].
  cbn [binary_normalize]. unfold binary_round.
  rewrite round_digits by trivial.
  apply round_above_one; [unfold ez; lia|lia|split; trivial].
Qed.

Lemma sum_above_one (b t : Py.float) :
  baseb b = true -> normalb (-128) (-42) t = true ->
  (2 ^ 52 + 1) * 2 ^ 76 <= scaled b + scaled t < 2 ^ 138 ->
  above_oneb (-42) (b + t)%py = true.
Proof.
  intros Hb Ht [L U].
  destruct (normalb_elim _ _ _ Ht) as (mt & et & -> & Mt & Et).
  destruct b as [s| | |sb mb eb]; try discriminate.
  - change (S754_zero s + S754_finite false mt et)%py
      with (S754_finite false mt et).
    apply (normal_above_one (-128) (-42)); [lia|exact Ht|exact L].
  - unfold baseb in Hb.
    rewrite !andb_true_iff, !Z.leb_le in Hb.
    change (-42) with (10 - 52).
    apply add_above_one; lia.
Qed.

Lemma mul_one_above_one (E : Z) (x : Py.float) :
  E <= 0 -> above_oneb E x = true -> above_oneb (E + 1) (float_1 * x)%py = true.
Proof.
  intros HE H.
  destruct (above_oneb_elim _ _ H) as (m & e & -> & [M1 M2] & [E1 E2] & K).
  unfold Py.mul, float_1, SFmul. cbn [xorb].
  replace (E + 1) with (E + 53 - 52) by lia.
  apply round_above_one; [lia|lia|].
  rewrite Pos2Z.inj_mul.
  replace (-52 - (-52 + e)) with (- e) by lia.
  assert (P : 0 < 2 ^ (- e)) by (apply Z.pow_pos_nonneg; lia).
  split.
  - destruct (Z.eq_dec e (-52)) as [->|N].
    + specialize (K eq_refl). change (2 ^ (- -52)) with (2 ^ 52).
      change (Zpos 4503599627370496) with (2 ^ 52). nia.
    + assert (2 ^ (- e) <= 2 ^ 51) by (apply Z.pow_le_mono_r; lia).
      change (Zpos 4503599627370496) with (2 ^ 52).
      change (2 ^ 52) with (2 * 2 ^ 51) in *. nia.
  - replace (E + 53 - (-52 + e)) with (52 + 53 + (E - e)) by lia.
    rewrite !Z.pow_add_r by lia.
    assert (1 <= 2 ^ (E - e)) by (apply (Z.pow_le_mono_r 2 0); lia).
    change (Zpos 4503599627370496) with (2 ^ 52). nia.
Qed.

Lemma above_one_cutoff (E : Z) (x : Py.float) :
  above_oneb E x = true ->
  ((if (x >? float_0)%py then x else float_0) >? float_1)%py = true.
Proof.
  intros H.
  destruct (above_oneb_elim _ _ H) as (m & e & -> & [M1 M2] & [E1 E2] & K).
  change (S754_finite false m e >? float_0)%py with true. cbv iota.
  unfold Py.gt, float_1, SFltb, SFcompare.
  destruct (Z.compare_spec (-52) e) as [X|X|X]; [|reflexivity|lia].
  specialize (K (eq_sym X)).
  rewrite Pos.compare_cont_spec. cbn [Pos.switch_Eq].
  change (2 ^ 52) with (Zpos 4503599627370496) in K.
  rewrite (proj2 (Pos.compare_lt_iff _ _)); [reflexivity|lia].
Qed.

(** For each age: the two floors are below the height [(40 * age + 1) / 100]
    and below a twentieth of the first one, and the second is enough to
    bring the sum to [1 + 2^-52]. *)
Lemma cutoff_floors_checked :
  forallb
    (fun age_years =>
       let b := cutoff_age_part age_years in
       let c1 := height_floor age_years in
       let c2 := term_floor age_years in
       normalb (-71) 0 c1 && normalb (-128) 0 c2
       && (scaled c1 * 100 <=? (40 * age_years + 1) * 2 ^ 128)%Z
       && (scaled c2 * 2 ^ 128 <=? scaled c1 * scaled float_0_05)%Z
       && baseb b
       && ((2 ^ 52 + 1) * 2 ^ 76 <=? scaled b + scaled c2)%Z)
    (zrange 121) = true.
Proof. vm_compute. reflexivity. Qed.

Lemma scaled_base (b : Py.float) : baseb b = true -> scaled b < 2 ^ 130.
Proof.
  destruct b as [s| | |s m e]; try discriminate; [reflexivity|].
  unfold baseb, scaled.
  rewrite !andb_true_iff, !Z.leb_le, Z.ltb_lt. intros [[E1 E2] M].
  assert (2 ^ (e + 128) <= 2 ^ 76) by (apply Z.pow_le_mono_r; lia).
  assert (0 < 2 ^ (e + 128)) by (apply Z.pow_pos_nonneg; lia).
  change (2 ^ 130) with (2 ^ 54 * 2 ^ 76).
  destruct s; cbn [cond_Zopp]; nia.
Qed.

(** The height term of the cutoff, for a height of [k] hundredths of a
    centimetre that is at least [40 * age + 1]. *)
Lemma mantissa_100 : 2 ^ 52 <= Zpos 7036874417766400 < 2 ^ 53.
Proof. split; [apply Z.leb_le|apply Z.ltb_lt]; reflexivity. Qed.

Lemma mantissa_0_05 : 2 ^ 52 <= Zpos 7205759403792794 < 2 ^ 53.
Proof. split; [apply Z.leb_le|apply Z.ltb_lt]; reflexivity. Qed.

Lemma height_term_from_below (age_years k : Z) :
  0 <= age_years <= 120 -> 40 * age_years < k <= 25400 ->
  normalb (-128) (-45) (Py.decimal k 100 * float_0_05)%py = true
  /\ scaled (term_floor age_years)
     <= scaled (Py.decimal k 100 * float_0_05)%py.
Proof.
  intros A K.
  assert (Ia : In age_years (zrange 121)) by (apply in_zrange; lia).
  assert (G := proj1 (forallb_forall _ _) cutoff_floors_checked age_years Ia).
  cbv beta zeta in G.
  rewrite !andb_true_iff, !Z.leb_le in G.
  destruct G as [[[[[N1 N2] G1] G2] _] _].
  destruct (normalb_elim _ _ _ N1) as (mc1 & ec1 & E1 & Mc1 & Ec1).
  destruct (normalb_elim _ _ _ N2) as (mc2 & ec2 & E2 & Mc2 & Ec2).
  rewrite E1 in G1, G2. rewrite E2 in G2 |- *.
  change (scaled float_0_05) with (Zpos 7205759403792794 * 2 ^ (-57 + 128)) in G2.
  unfold scaled in G1, G2 |- *. cbn [cond_Zopp] in G1, G2 |- *.
  set (T := 2 ^ 128) in *.
  assert (PT : 0 < T) by (apply Z.pow_pos_nonneg; lia).
  (* the height as a float *)
  destruct (of_int_from_below k) as [Nk Vk]; [change (2 ^ 15) with 32768; lia|].
  destruct (normalb_elim _ _ _ Nk) as (mk & ek & Ek & Mk & Eek).
  unfold Py.decimal. rewrite Ek in Vk |- *.
  unfold scaled in Vk. cbn [cond_Zopp] in Vk. fold T in Vk.
  change (Py.of_int 100) with (S754_finite false 7036874417766400 (-46)).
  destruct (div_from_below mk 7036874417766400 ek (-46) 10 (Zpos mc1) ec1
              Mk mantissa_100 ltac:(lia) ltac:(lia) ltac:(lia) ltac:(lia)
              Mc1 ltac:(lia)) as [Nh Vh].
  { change (Zpos 7036874417766400 * 2 ^ (-46 + 128)) with (100 * T).
    fold T. rewrite Z.mul_assoc.
    apply Z.mul_le_mono_nonneg_r; [lia|].
    apply Z.le_trans with ((40 * age_years + 1) * T); [exact G1|].
    apply Z.le_trans with (k * T); [|exact Vk].
    apply Z.mul_le_mono_nonneg_r; lia. }
  destruct (normalb_elim _ _ _ Nh) as (mh & eh & Eh & Mh & Eeh).
  rewrite Eh in Vh |- *. unfold scaled in Vh. cbn [cond_Zopp] in Vh.
  (* its twentieth *)
  unfold float_0_05.
  destruct (mul_from_below mh 7205759403792794 eh (-57) 7 (Zpos mc2) ec2
              Mh mantissa_0_05 ltac:(lia) ltac:(lia) ltac:(lia) ltac:(lia)
              Mc2 ltac:(lia)) as [Nt Vt].
  { fold T. eapply Z.le_trans; [exact G2|].
    apply Z.mul_le_mono_nonneg_r; [|exact Vh].
    apply Z.mul_nonneg_nonneg; [lia|apply Z.pow_nonneg; lia]. }
  split; [|exact Vt].
  revert Nt. apply normalb_weaken; lia.
Qed.

Lemma hundredths_cutoff (age_years k : Z) (gender : string) :
  0 <= age_years <= 120 -> 0 <= k <= 25400 -> 40 * age_years < k ->
  (calculate_lln (Py.of_int 1) (Py.of_int age_years) gender
     (Py.decimal k 100) "Caucasian" >? Py.of_int 1)%py = true.
Proof.
  intros A K C.
  assert (E1 : Py.of_int 1 = float_1) by reflexivity.
  rewrite caucasian_cutoff_eq, E1.
  unfold caucasian_cutoff. cbv zeta.
  change (float_1 - Py.of_int age_years * float_0_02)%py
    with (cutoff_age_part age_years).
  destruct (height_term_from_below age_years k A ltac:(lia)) as [Nt Vt].
  assert (Ia : In age_years (zrange 121)) by (apply in_zrange; lia).
  assert (G := proj1 (forallb_forall _ _) cutoff_floors_checked age_years Ia).
  cbv beta zeta in G.
  rewrite !andb_true_iff, !Z.leb_le in G.
  destruct G as [[_ Hb] L].
  assert (Ub := scaled_base _ Hb).
  destruct (scaled_normal (-128) (-45) _ ltac:(lia) Nt) as [_ Ut].
  apply (above_one_cutoff (-42 + 1)).
  apply mul_one_above_one; [lia|].
  apply sum_above_one; [exact Hb|revert Nt; apply normalb_weaken; lia|].
  split; [lia|].
  change (2 ^ (-45 + 181)) with (2 ^ 136) in Ut.
  change (2 ^ 138) with (4 * 2 ^ 136).
  change (2 ^ 130) with (2 ^ 130 + 0) in Ub.
  assert (2 ^ 130 <= 2 ^ 136) by (apply Z.pow_le_mono_r; lia).
  lia.
Qed.

(** Far below the resolution of the page, which rounds the height to
    hundredths of a centimetre, the sum can round back to 1.0: at age 0 and
    a height of 1e-20 cm the cutoff is exactly 1.0, not above it, and a
    ratio of 1.0 gets the fallback. *)
Lemma tiny_height_cutoff_is_one :
  (Py.of_int 1 <=? Py.of_int 1)%py = true
  /\ (Py.decimal 1 (10 ^ 20) >? Py.decimal 4 10 * Py.of_int 0)%py = true
  /\ calculate_lln (Py.of_int 1) (Py.of_int 0) "Male" (Py.decimal 1 (10 ^ 20))
       "Caucasian" = Py.of_int 1
  /\ interpret_pft (Py.of_int 100) (Py.of_int 100) (Py.of_int 1) (Py.of_int 0)
       "Male" (Py.decimal 1 (10 ^ 20)) "Caucasian" None None None None None
     = ["Normal PFT values.";
        "Next steps: No action needed. Encourage routine follow-up if indicated."].
Proof. repeat split; vm_compute; reflexivity. Qed.

Lemma same_float_eq (x y : Py.float) : same_float x y = true -> x = y.
Proof.
  destruct x as [a|a| |a m e], y as [b|b| |b n f]; cbn; try discriminate.
  - intros E. apply Bool.eqb_prop in E. now subst.
  - intros E. apply Bool.eqb_prop in E. now subst.
  - reflexivity.
  - intros E. apply andb_true_iff in E. destruct E as [E Ef].
    apply andb_true_iff in E. destruct E as [Ea Em].
    apply Bool.eqb_prop in Ea. apply Pos.eqb_eq in Em. apply Z.eqb_eq in Ef.
    now subst.
Qed.

(** The page's conversions, run over every step of the two inputs. *)
Lemma conversion_grids_checked :
  forallb
    (fun tenths =>
       same_float (height_cm_of (Py.decimal tenths 10))
         (Py.decimal ((254 * tenths + 5) / 10) 100))
    (zrange 1001)
  && forallb
       (fun pounds =>
          same_float (weight_kg_of (Py.of_int pounds))
            (Py.decimal ((453592 * pounds + 5000) / 10000) 100))
       (zrange 661) = true.
Proof. vm_compute. reflexivity. Qed.

Lemma form_height_cutoff (age_years tenths : Z) (gender : string) :
  0 <= age_years <= 120 -> 0 <= tenths <= 1000 ->
  40 * age_years < (254 * tenths + 5) / 10 ->
  (calculate_lln (Py.of_int 1) (Py.of_int age_years) gender
     (height_cm_of (Py.decimal tenths 10)) "Caucasian" >? Py.of_int 1)%py = true.
Proof.
  intros A T C.
  pose proof conversion_grids_checked as G.
  apply andb_true_iff in G. destruct G as [G _].
  rewrite (same_float_eq _ _
             (proj1 (forallb_forall _ _) G tenths
                (in_zrange 1001 tenths ltac:(lia)))).
  apply hundredths_cutoff; [exact A| |exact C].
  split; [apply Z.div_pos; lia|].
  apply Z.lt_succ_r, Z.div_lt_upper_bound; lia.
Qed.

(** C9. For every input with [fev1_fvc <= 1] whose computed cutoff is
    strictly greater than 1, the output starts with the obstructive line and
    has no "Normal PFT values." line, whatever fev1, fvc and the optional
    measurements are.  Every Caucasian patient with [height > 0.4 * age]
    that the page can hand in has such a cutoff: a whole-number age from 0
    to 120 and a height of [k] hundredths of a centimetre, [k] up to 25400
    with [40 * age < k]; in particular the height the page converts from
    any number of tenths of an inch up to 100 inches. *)
Theorem cutoff_above_one_obstructive (fev1 fvc fev1_fvc age : Py.float)
    (gender : string) (height : Py.float) (ethnicity : string)
    (dlco_sb dl_va va_sb ivc_sb bht : option Py.float)
    (age_years height_hundredths inches_tenths : Z) :
  ((fev1_fvc <=? Py.of_int 1)%py = true ->
   (calculate_lln (Py.of_int 1) age gender height ethnicity >? Py.of_int 1)%py
     = true ->
   hd_error
     (interpret_pft fev1 fvc fev1_fvc age gender height ethnicity
        dlco_sb dl_va va_sb ivc_sb bht)
   = Some ("Obstructive pattern detected (LLN-adjusted cutoff: "
             ++ Py.format_2f
                  (calculate_lln (Py.of_int 1) age gender height ethnicity)
             ++ ").")
   /\ ~ In "Normal PFT values."
          (interpret_pft fev1 fvc fev1_fvc age gender height ethnicity
             dlco_sb dl_va va_sb ivc_sb bht))
  /\ (0 <= age_years <= 120 -> 0 <= height_hundredths <= 25400 ->
      40 * age_years < height_hundredths ->
      (calculate_lln (Py.of_int 1) (Py.of_int age_years) gender
         (Py.decimal height_hundredths 100) "Caucasian" >? Py.of_int 1)%py
      = true)
  /\ (0 <= age_years <= 120 -> 0 <= inches_tenths <= 1000 ->
      40 * age_years < (254 * inches_tenths + 5) / 10 ->
      (calculate_lln (Py.of_int 1) (Py.of_int age_years) gender
         (height_cm_of (Py.decimal inches_tenths 10)) "Caucasian"
       >? Py.of_int 1)%py = true).
Proof.
  split; [|split].
  - intros R C.
    assert (L : (fev1_fvc
                   <? calculate_lln (Py.of_int 1) age gender height ethnicity)%py
                = true) by exact (le_lt_trans _ _ _ R C).
    rewrite (obstructive_line_first _ _ _ _ _ _ _ _ _ _ _ _ L).
    split; [reflexivity|].
    intros [H|H]; [discriminate H|].
    unfold diffusion_lines in H. rewrite !in_app_iff in H.
    destruct H as [H|[H|[H|[H|[H|[H|[H|H]]]]]]]; line_cases H.
  - apply hundredths_cutoff.
  - apply form_height_cutoff.
Qed.

Lemma cutoff_above_one_obstructive_witness :
  (Py.decimal 65 100 <=? Py.of_int 1)%py = true
  /\ height_cm_of (Py.decimal 652 10) = Py.decimal 16561 100
  /\ (calculate_lln (Py.of_int 1) (Py.of_int 30) "Male" (Py.decimal 16561 100)
        "Caucasian" >? Py.of_int 1)%py = true
  /\ hd_error
       (interpret_pft (Py.of_int 40) (Py.of_int 90) (Py.decimal 65 100)
          (Py.of_int 30) "Male" (Py.decimal 16561 100) "Caucasian"
          None None None None None)
     = Some "Obstructive pattern detected (LLN-adjusted cutoff: 8.68)."
  /\ ~ In "Normal PFT values."
         (interpret_pft (Py.of_int 40) (Py.of_int 90) (Py.decimal 65 100)
            (Py.of_int 30) "Male" (Py.decimal 16561 100) "Caucasian"
            None None None None None).
Proof.
  destruct (cutoff_above_one_obstructive (Py.of_int 40) (Py.of_int 90)
              (Py.decimal 65 100) (Py.of_int 30) "Male" (Py.decimal 16561 100)
              "Caucasian" None None None None None 30 16561 652)
    as (A & B & F).
  assert (R : (Py.decimal 65 100 <=? Py.of_int 1)%py = true)
    by (vm_compute; reflexivity).
  assert (C := B ltac:(lia) ltac:(lia) ltac:(lia)).
  assert (D := F ltac:(lia) ltac:(lia) ltac:(vm_compute; reflexivity)).
  destruct (A R C) as [H1 H2].
  split; [exact R|]. split; [vm_compute; reflexivity|].
  split; [exact C|]. split; [|exact H2].
  rewrite H1. vm_compute. reflexivity.
Defined.

(** ** Further properties of the interpreter *)

Lemma in_fallback_of (s : string) (l : list string) : In s l -> In s (fallback l).
Proof. destruct l; [contradiction | trivial]. Qed.

Lemma lines_with_app (p : string) (l1 l2 : list string) :
  lines_with p (l1 ++ l2) = (lines_with p l1 ++ lines_with p l2)%list.
Proof. apply filter_app. Qed.

Lemma lines_with_in (p line : string) (l : list string) :
  In line (lines_with p l) <-> In line l /\ String.prefix p line = true.
Proof. apply filter_In. Qed.

(** The cutoff is [0.0] or strictly positive: never negative, never a
    negative zero, never a NaN. *)
Lemma calculate_lln_zero_or_positive (parameter age : Py.float) (gender : string)
    (height : Py.float) (ethnicity : string) :
  calculate_lln parameter age gender height ethnicity = S754_zero false
  \/ (calculate_lln parameter age gender height ethnicity >? Py.of_int 0)%py = true.
Proof.
  unfold calculate_lln, Py.max0.
  match goal with |- context [Py.gt ?v ?z] => destruct (Py.gt v z) eqn:G end.
  - right. exact G.
  - left. reflexivity.
Qed.

Lemma calculate_lln_not_nan (parameter age : Py.float) (gender : string)
    (height : Py.float) (ethnicity : string) :
  Py.is_nan (calculate_lln parameter age gender height ethnicity) = false.
Proof.
  destruct (calculate_lln_zero_or_positive parameter age gender height ethnicity)
    as [E|G].
  - rewrite E. reflexivity.
  - destruct (calculate_lln parameter age gender height ethnicity);
      try reflexivity.
    discriminate G.
Qed.

Section Patterns.

Variables (fev1 fvc fev1_fvc : Py.float) (lln : Py.float)
  (dlco_sb dl_va va_sb ivc_sb bht : option Py.float).

Lemma obstructive_among_patterns :
  lines_with "Obstructive pattern detected" (pattern_lines fev1 fvc fev1_fvc lln)
  = if (fev1_fvc <? lln)%py then [obstructive_line lln] else [].
Proof.
  unfold pattern_lines. rewrite !lines_with_app.
  assert (R : lines_with "Obstructive pattern detected"
                (restrictive_lines fvc fev1_fvc lln) = [])
    by (unfold restrictive_lines; now destruct (_ && _)).
  assert (M : lines_with "Obstructive pattern detected"
                (mixed_lines fvc fev1_fvc lln) = [])
    by (unfold mixed_lines; now destruct (_ && _)).
  rewrite R, M, !app_nil_r. unfold obstructive_lines.
  destruct (fev1_fvc <? lln)%py; [|reflexivity].
  change (lines_with ?p (obstructive_line lln :: ?r))
    with (obstructive_line lln :: lines_with p r).
  f_equal. unfold severity_lines.
  destruct (fev1 >=? Py.of_int 70)%py; [reflexivity|].
  destruct ((Py.of_int 50 <=? fev1)%py && (fev1 <? Py.of_int 70)%py); [reflexivity|].
  destruct (fev1 <? Py.of_int 50)%py; reflexivity.
Qed.

Lemma obstructive_among_diffusion :
  lines_with "Obstructive pattern detected"
    (diffusion_lines dlco_sb dl_va va_sb ivc_sb bht) = [].
Proof.
  unfold diffusion_lines. rewrite !lines_with_app.
  assert (D : lines_with "Obstructive pattern detected" (dlco_lines dlco_sb) = []).
  { unfold dlco_lines. destruct dlco_sb as [d|]; [|reflexivity].
    now destruct (d <? Py.of_int 80)%py. }
  rewrite D. now destruct dl_va, va_sb, ivc_sb, bht.
Qed.

End Patterns.

Lemma obstructive_lines_of_output fev1 fvc fev1_fvc age gender height ethnicity
    dlco_sb dl_va va_sb ivc_sb bht :
  lines_with "Obstructive pattern detected"
    (interpret_pft fev1 fvc fev1_fvc age gender height ethnicity
       dlco_sb dl_va va_sb ivc_sb bht)
  = if (fev1_fvc <? calculate_lln (Py.of_int 1) age gender height ethnicity)%py
    then [obstructive_line (calculate_lln (Py.of_int 1) age gender height ethnicity)]
    else [].
Proof.
  rewrite interpret_pft_rules.
  rewrite <- (obstructive_among_patterns fev1 fvc).
  destruct (pattern_lines fev1 fvc fev1_fvc
              (calculate_lln (Py.of_int 1) age gender height ethnicity)
            ++ diffusion_lines dlco_sb dl_va va_sb ivc_sb bht)%list eqn:E.
  - apply app_eq_nil in E. destruct E as [E _]. rewrite E. reflexivity.
  - rewrite <- E. cbn [fallback].
    replace (fallback _) with
      (pattern_lines fev1 fvc fev1_fvc
         (calculate_lln (Py.of_int 1) age gender height ethnicity)
       ++ diffusion_lines dlco_sb dl_va va_sb ivc_sb bht)%list
      by (rewrite E; reflexivity).
    rewrite lines_with_app, obstructive_among_diffusion. apply app_nil_r.
Qed.

Lemma ge_not_lt (x y : Py.float) : Py.ge x y = true -> Py.lt x y = false.
Proof.
  intros G. destruct (Py.lt x y) eqn:L; [|reflexivity].
  rewrite (lt_not_ge _ _ L) in G. discriminate G.
Qed.

Lemma normal_line_not_in_rules fev1 fvc fev1_fvc lln dlco_sb dl_va va_sb ivc_sb bht :
  ~ In "Normal PFT values."
      (pattern_lines fev1 fvc fev1_fvc lln
       ++ diffusion_lines dlco_sb dl_va va_sb ivc_sb bht).
Proof.
  intros H. unfold pattern_lines, diffusion_lines in H. rewrite !in_app_iff in H.
  destruct H as [[H|[H|H]]|[H|[H|[H|[H|H]]]]]; line_cases H.
Qed.

Lemma obstructive_line_rule fev1 fvc fev1_fvc age gender height ethnicity
    dlco_sb dl_va va_sb ivc_sb bht :
  (exists line,
     In line (interpret_pft fev1 fvc fev1_fvc age gender height ethnicity
                dlco_sb dl_va va_sb ivc_sb bht)
     /\ is_obstructive_line line = true) ->
  (fev1_fvc <? calculate_lln (Py.of_int 1) age gender height ethnicity)%py = true.
Proof.
  intros (line & I & P).
  assert (I' : In line
            (lines_with "Obstructive pattern detected"
               (interpret_pft fev1 fvc fev1_fvc age gender height ethnicity
                  dlco_sb dl_va va_sb ivc_sb bht)))
    by (apply lines_with_in; split; [exact I | exact P]).
  rewrite obstructive_lines_of_output in I'.
  destruct (fev1_fvc <? _)%py; [reflexivity | contradiction].
Qed.

Lemma restrictive_line_of fev1 fvc fev1_fvc age gender height ethnicity
    dlco_sb dl_va va_sb ivc_sb bht :
  (fvc <? Py.of_int 80)%py = true ->
  (fev1_fvc >=? calculate_lln (Py.of_int 1) age gender height ethnicity)%py = true ->
  In "Restrictive pattern detected."
    (interpret_pft fev1 fvc fev1_fvc age gender height ethnicity
       dlco_sb dl_va va_sb ivc_sb bht).
Proof.
  intros F G. rewrite interpret_pft_rules. apply in_fallback_of.
  unfold pattern_lines, restrictive_lines. rewrite F, G.
  rewrite !in_app_iff. left; right; left. now left.
Qed.

Lemma mixed_line_of fev1 fvc fev1_fvc age gender height ethnicity
    dlco_sb dl_va va_sb ivc_sb bht :
  (fev1_fvc <? calculate_lln (Py.of_int 1) age gender height ethnicity)%py = true ->
  (fvc <? Py.of_int 80)%py = true ->
  In "Mixed obstructive and restrictive pattern detected."
    (interpret_pft fev1 fvc fev1_fvc age gender height ethnicity
       dlco_sb dl_va va_sb ivc_sb bht).
Proof.
  intros L F. rewrite interpret_pft_rules. apply in_fallback_of.
  unfold pattern_lines, mixed_lines. rewrite L, F.
  rewrite !in_app_iff. left; right; right. now left.
Qed.

Lemma obstructive_line_of fev1 fvc fev1_fvc age gender height ethnicity
    dlco_sb dl_va va_sb ivc_sb bht :
  (fev1_fvc <? calculate_lln (Py.of_int 1) age gender height ethnicity)%py = true ->
  exists line,
    In line (interpret_pft fev1 fvc fev1_fvc age gender height ethnicity
               dlco_sb dl_va va_sb ivc_sb bht)
    /\ is_obstructive_line line = true.
Proof.
  intros L. rewrite (obstructive_line_first _ _ _ _ _ _ _ _ _ _ _ _ L).
  eexists. split; [now left | apply obstructive_line_is_obstructive].
Qed.

(** X1. Which pattern findings an output has is decided by the two tests
    alone: an obstructive line exactly when [fev1_fvc < LLN], the restrictive
    line exactly when [fvc < 80] and [fev1_fvc >= LLN], the mixed line
    exactly when [fev1_fvc < LLN] and [fvc < 80]; fev1 and the optional
    measurements have no part in it. *)
Theorem pattern_findings (fev1 fvc fev1_fvc age : Py.float) (gender : string)
    (height : Py.float) (ethnicity : string)
    (dlco_sb dl_va va_sb ivc_sb bht : option Py.float) :
  ((exists line,
      In line (interpret_pft fev1 fvc fev1_fvc age gender height ethnicity
                 dlco_sb dl_va va_sb ivc_sb bht)
      /\ is_obstructive_line line = true)
   <-> (fev1_fvc <? calculate_lln (Py.of_int 1) age gender height ethnicity)%py
       = true)
  /\ (In "Restrictive pattern detected."
        (interpret_pft fev1 fvc fev1_fvc age gender height ethnicity
           dlco_sb dl_va va_sb ivc_sb bht)
      <-> (fvc <? Py.of_int 80)%py = true
          /\ (fev1_fvc >=? calculate_lln (Py.of_int 1) age gender height ethnicity)%py
             = true)
  /\ (In "Mixed obstructive and restrictive pattern detected."
        (interpret_pft fev1 fvc fev1_fvc age gender height ethnicity
           dlco_sb dl_va va_sb ivc_sb bht)
      <-> (fev1_fvc <? calculate_lln (Py.of_int 1) age gender height ethnicity)%py
          = true
          /\ (fvc <? Py.of_int 80)%py = true).
Proof.
  split; [|split].
  - split; [apply obstructive_line_rule | apply obstructive_line_of].
  - split; [apply restrictive_line_rule | intros [F G]; now apply restrictive_line_of].
  - split; [apply mixed_line_rule | intros [L F]; now apply mixed_line_of].
Qed.

(** X2. No output has both an obstructive line and the restrictive line. *)
Theorem obstructive_restrictive_exclusive (fev1 fvc fev1_fvc age : Py.float)
    (gender : string) (height : Py.float) (ethnicity : string)
    (dlco_sb dl_va va_sb ivc_sb bht : option Py.float) :
  ~ (In "Restrictive pattern detected."
       (interpret_pft fev1 fvc fev1_fvc age gender height ethnicity
          dlco_sb dl_va va_sb ivc_sb bht)
     /\ exists line,
          In line (interpret_pft fev1 fvc fev1_fvc age gender height ethnicity
                     dlco_sb dl_va va_sb ivc_sb bht)
          /\ is_obstructive_line line = true).
Proof.
  intros [R O].
  apply obstructive_line_rule in O.
  apply restrictive_line_rule in R. destruct R as [_ G].
  rewrite (lt_not_ge _ _ O) in G. discriminate G.
Qed.

(** X3. With [fvc < 80] and a ratio that is a number, the output has exactly
    one of the two low-volume findings: the restrictive line with no
    obstructive and no mixed line, or the mixed line together with an
    obstructive line and without the restrictive one. *)
Theorem low_fvc_restrictive_or_mixed (fev1 fvc fev1_fvc age : Py.float)
    (gender : string) (height : Py.float) (ethnicity : string)
    (dlco_sb dl_va va_sb ivc_sb bht : option Py.float) :
  (fvc <? Py.of_int 80)%py = true ->
  Py.is_nan fev1_fvc = false ->
  let out := interpret_pft fev1 fvc fev1_fvc age gender height ethnicity
               dlco_sb dl_va va_sb ivc_sb bht in
  (In "Restrictive pattern detected." out
   /\ ~ In "Mixed obstructive and restrictive pattern detected." out
   /\ ~ (exists line, In line out /\ is_obstructive_line line = true))
  \/ (In "Mixed obstructive and restrictive pattern detected." out
      /\ (exists line, In line out /\ is_obstructive_line line = true)
      /\ ~ In "Restrictive pattern detected." out).
Proof.
  intros F N out. subst out.
  destruct (lt_or_ge fev1_fvc
              (calculate_lln (Py.of_int 1) age gender height ethnicity) N
              (calculate_lln_not_nan _ _ _ _ _)) as [L|G].
  - right. split; [now apply mixed_line_of|]. split; [now apply obstructive_line_of|].
    intros R. apply restrictive_line_rule in R. destruct R as [_ G].
    rewrite (lt_not_ge _ _ L) in G. discriminate G.
  - left. split; [now apply restrictive_line_of|]. split.
    + intros M. apply mixed_line_rule in M. destruct M as [L _].
      rewrite (ge_not_lt _ _ G) in L. discriminate L.
    + intros O. apply obstructive_line_rule in O.
      rewrite (ge_not_lt _ _ G) in O. discriminate O.
Qed.

Lemma low_fvc_restrictive_or_mixed_witness :
  In "Restrictive pattern detected."
    (interpret_pft (Py.of_int 90) (Py.of_int 70) (Py.decimal 95 100)
       (Py.of_int 80) "Female" (Py.of_int 30) "Caucasian"
       None None None None None)
  \/ In "Mixed obstructive and restrictive pattern detected."
       (interpret_pft (Py.of_int 90) (Py.of_int 70) (Py.decimal 95 100)
          (Py.of_int 80) "Female" (Py.of_int 30) "Caucasian"
          None None None None None).
Proof.
  destruct (low_fvc_restrictive_or_mixed (Py.of_int 90) (Py.of_int 70)
              (Py.decimal 95 100) (Py.of_int 80) "Female" (Py.of_int 30)
              "Caucasian" None None None None None eq_refl eq_refl)
    as [[R _]|[M _]]; [left; exact R | right; exact M].
Defined.

(** X4. A ratio that is not a number triggers no pattern, whatever fev1 and
    fvc are: no obstructive, restrictive or mixed line, and with no optional
    measurement the output is the "Normal PFT values." fallback. *)
Theorem nan_ratio_no_pattern (fev1 fvc fev1_fvc age : Py.float)
    (gender : string) (height : Py.float) (ethnicity : string)
    (dlco_sb dl_va va_sb ivc_sb bht : option Py.float) :
  Py.is_nan fev1_fvc = true ->
  (forall line,
     In line (interpret_pft fev1 fvc fev1_fvc age gender height ethnicity
                dlco_sb dl_va va_sb ivc_sb bht) ->
     is_obstructive_line line = false
     /\ line <> "Restrictive pattern detected."
     /\ line <> "Mixed obstructive and restrictive pattern detected.")
  /\ interpret_pft fev1 fvc fev1_fvc age gender height ethnicity
       None None None None None
     = ["Normal PFT values.";
        "Next steps: No action needed. Encourage routine follow-up if indicated."].
Proof.
  intros N.
  destruct (nan_compares_false fev1_fvc
              (calculate_lln (Py.of_int 1) age gender height ethnicity) N)
    as (L & _ & _ & G).
  split.
  - intros line I. split; [|split].
    + destruct (is_obstructive_line line) eqn:P; [|reflexivity].
      assert (O : exists l,
                 In l (interpret_pft fev1 fvc fev1_fvc age gender height
                         ethnicity dlco_sb dl_va va_sb ivc_sb bht)
                 /\ is_obstructive_line l = true) by (exists line; now split).
      apply obstructive_line_rule in O. rewrite L in O. discriminate O.
    + intros E. subst line. apply restrictive_line_rule in I.
      destruct I as [_ G']. rewrite G in G'. discriminate G'.
    + intros E. subst line. apply mixed_line_rule in I.
      destruct I as [L' _]. rewrite L in L'. discriminate L'.
  - rewrite interpret_pft_rules.
    unfold pattern_lines, obstructive_lines, restrictive_lines, mixed_lines.
    rewrite L, G, andb_false_r. reflexivity.
Qed.

Lemma nan_ratio_no_pattern_witness :
  interpret_pft (Py.of_int 30) (Py.of_int 40) S754_nan (Py.of_int 50) "Male"
    (Py.of_int 170) "Asian" None None None None None
  = ["Normal PFT values.";
     "Next steps: No action needed. Encourage routine follow-up if indicated."].
Proof.
  exact (proj2 (nan_ratio_no_pattern (Py.of_int 30) (Py.of_int 40) S754_nan
                  (Py.of_int 50) "Male" (Py.of_int 170) "Asian"
                  None None None None None eq_refl)).
Defined.

Lemma obstructive_lines_nil fev1 fev1_fvc lln :
  obstructive_lines fev1 fev1_fvc lln = [] <-> (fev1_fvc <? lln)%py = false.
Proof.
  unfold obstructive_lines. destruct (fev1_fvc <? lln)%py.
  - split; discriminate.
  - split; reflexivity.
Qed.

Lemma restrictive_lines_nil fvc fev1_fvc lln :
  restrictive_lines fvc fev1_fvc lln = []
  <-> (fvc <? Py.of_int 80)%py && (fev1_fvc >=? lln)%py = false.
Proof.
  unfold restrictive_lines. destruct (_ && _).
  - split; discriminate.
  - split; reflexivity.
Qed.

Lemma mixed_lines_nil_of fvc fev1_fvc lln :
  (fev1_fvc <? lln)%py = false -> mixed_lines fvc fev1_fvc lln = [].
Proof. intros L. unfold mixed_lines. now rewrite L. Qed.

Lemma diffusion_lines_nil dlco_sb dl_va va_sb ivc_sb bht :
  diffusion_lines dlco_sb dl_va va_sb ivc_sb bht = []
  <-> dlco_sb = None /\ dl_va = None /\ va_sb = None /\ ivc_sb = None
      /\ bht = None.
Proof.
  split.
  - unfold diffusion_lines, dlco_lines, info_line.
    destruct dlco_sb as [d|]; [destruct (d <? Py.of_int 80)%py; discriminate|].
    destruct dl_va; [discriminate|]. destruct va_sb; [discriminate|].
    destruct ivc_sb; [discriminate|]. destruct bht; [discriminate|].
    repeat split.
  - intros (-> & -> & -> & -> & ->). reflexivity.
Qed.

(** X5. The output is the "Normal PFT values." fallback exactly when neither
    spirometry test holds and all five optional measurements are absent; any
    optional measurement, whatever its value, removes the fallback. *)
Theorem normal_fallback_iff (fev1 fvc fev1_fvc age : Py.float)
    (gender : string) (height : Py.float) (ethnicity : string)
    (dlco_sb dl_va va_sb ivc_sb bht : option Py.float) :
  In "Normal PFT values."
    (interpret_pft fev1 fvc fev1_fvc age gender height ethnicity
       dlco_sb dl_va va_sb ivc_sb bht)
  <-> ((fev1_fvc <? calculate_lln (Py.of_int 1) age gender height ethnicity)%py
       = false
       /\ (fvc <? Py.of_int 80)%py
          && (fev1_fvc >=? calculate_lln (Py.of_int 1) age gender height
                             ethnicity)%py = false
       /\ dlco_sb = None /\ dl_va = None /\ va_sb = None /\ ivc_sb = None
       /\ bht = None).
Proof.
  rewrite interpret_pft_rules. split.
  - intros H. apply in_fallback in H. destruct H as [H|[E _]].
    + now apply normal_line_not_in_rules in H.
    + apply app_eq_nil in E. destruct E as [P D].
      unfold pattern_lines in P.
      apply app_eq_nil in P. destruct P as [O P].
      apply app_eq_nil in P. destruct P as [R _].
      split; [now apply obstructive_lines_nil in O|].
      split; [now apply restrictive_lines_nil in R|].
      now apply diffusion_lines_nil.
  - intros (L & R & D).
    apply diffusion_lines_nil in D. rewrite D.
    unfold pattern_lines.
    rewrite (proj2 (obstructive_lines_nil fev1 _ _) L),
      (proj2 (restrictive_lines_nil _ _ _) R), (mixed_lines_nil_of _ _ _ L).
    now left.
Qed.

Lemma pattern_lines_length fev1 fvc fev1_fvc lln :
  (List.length (pattern_lines fev1 fvc fev1_fvc lln) <= 5)%nat.
Proof.
  unfold pattern_lines, obstructive_lines, restrictive_lines, mixed_lines,
    severity_lines.
  destruct (fev1_fvc <? lln)%py eqn:L.
  - rewrite (lt_not_ge _ _ L), andb_false_r.
    destruct (fev1 >=? Py.of_int 70)%py;
      [|destruct ((Py.of_int 50 <=? fev1)%py && (fev1 <? Py.of_int 70)%py);
        [|destruct (fev1 <? Py.of_int 50)%py]];
      destruct (fvc <? Py.of_int 80)%py; cbn; lia.
  - destruct ((fvc <? Py.of_int 80)%py && (fev1_fvc >=? lln)%py); cbn; lia.
Qed.

Lemma diffusion_lines_length dlco_sb dl_va va_sb ivc_sb bht :
  (List.length (diffusion_lines dlco_sb dl_va va_sb ivc_sb bht) <= 6)%nat.
Proof.
  unfold diffusion_lines, dlco_lines, info_line.
  destruct dlco_sb as [d|]; [destruct (d <? Py.of_int 80)%py|];
    destruct dl_va, va_sb, ivc_sb, bht; cbn; lia.
Qed.

(** X6. An output is never empty and never longer than eleven lines, and
    both bounds are reached. *)
Theorem output_length_bounds (fev1 fvc fev1_fvc age : Py.float)
    (gender : string) (height : Py.float) (ethnicity : string)
    (dlco_sb dl_va va_sb ivc_sb bht : option Py.float) :
  (1 <= List.length (interpret_pft fev1 fvc fev1_fvc age gender height ethnicity
                  dlco_sb dl_va va_sb ivc_sb bht) <= 11)%nat
  /\ List.length (interpret_pft (Py.of_int 100) (Py.of_int 100) (Py.of_int 1)
               (Py.of_int 60) "Male" (Py.of_int 20) "Caucasian"
               None (Some (Py.of_int 4)) None None None) = 1%nat
  /\ List.length (interpret_pft (Py.of_int 40) (Py.of_int 70) (Py.decimal 65 100)
               (Py.of_int 30) "Male" (Py.of_int 170) "Asian"
               (Some (Py.of_int 70)) (Some (Py.of_int 4)) (Some (Py.of_int 5))
               (Some (Py.of_int 3)) (Some (Py.of_int 10))) = 11%nat.
Proof.
  split; [|split; vm_compute; reflexivity].
  rewrite interpret_pft_rules.
  pose proof (pattern_lines_length fev1 fvc fev1_fvc
                (calculate_lln (Py.of_int 1) age gender height ethnicity)) as P.
  pose proof (diffusion_lines_length dlco_sb dl_va va_sb ivc_sb bht) as D.
  pose proof (length_app
                (pattern_lines fev1 fvc fev1_fvc
                   (calculate_lln (Py.of_int 1) age gender height ethnicity))
                (diffusion_lines dlco_sb dl_va va_sb ivc_sb bht)) as Len.
  destruct (pattern_lines _ _ _ _ ++ diffusion_lines _ _ _ _ _)%list;
    cbn [fallback normal_lines List.length] in *; lia.
Qed.

Lemma fallback_nonempty (l : list string) : l <> [] -> fallback l = l.
Proof. destruct l; [contradiction | reflexivity]. Qed.

Lemma pattern_lines_fired fev1 fvc fev1_fvc lln :
  (fev1_fvc <? lln)%py = true
  \/ (fvc <? Py.of_int 80)%py && (fev1_fvc >=? lln)%py = true ->
  pattern_lines fev1 fvc fev1_fvc lln <> [].
Proof.
  intros H E. unfold pattern_lines in E.
  apply app_eq_nil in E. destruct E as [O E].
  apply app_eq_nil in E. destruct E as [R _].
  apply obstructive_lines_nil in O. apply restrictive_lines_nil in R.
  destruct H as [H|H]; congruence.
Qed.

(** X7. When a pattern fired, the optional measurements only add lines: the
    output is the output without them followed by the measurement lines, in
    the order DLCO_SB, DL/VA, VA_SB, IVC_SB, BHT. *)
Theorem optional_measurements_append (fev1 fvc fev1_fvc age : Py.float)
    (gender : string) (height : Py.float) (ethnicity : string)
    (dlco_sb dl_va va_sb ivc_sb bht : option Py.float) :
  (fev1_fvc <? calculate_lln (Py.of_int 1) age gender height ethnicity)%py = true
  \/ (fvc <? Py.of_int 80)%py
     && (fev1_fvc >=? calculate_lln (Py.of_int 1) age gender height ethnicity)%py
     = true ->
  interpret_pft fev1 fvc fev1_fvc age gender height ethnicity
    dlco_sb dl_va va_sb ivc_sb bht
  = (interpret_pft fev1 fvc fev1_fvc age gender height ethnicity
       None None None None None
     ++ diffusion_lines dlco_sb dl_va va_sb ivc_sb bht)%list.
Proof.
  intros H. apply (pattern_lines_fired fev1) in H.
  rewrite !interpret_pft_rules.
  change (diffusion_lines None None None None None) with (@nil string).
  rewrite app_nil_r, (fallback_nonempty _ H).
  apply fallback_nonempty. intros E. apply app_eq_nil in E. now destruct E.
Qed.

Lemma optional_measurements_append_witness :
  interpret_pft (Py.of_int 60) (Py.of_int 90) (Py.decimal 65 100) (Py.of_int 30)
    "Male" (Py.of_int 170) "Caucasian" None (Some (Py.decimal 45 10)) None None
    None
  = (interpret_pft (Py.of_int 60) (Py.of_int 90) (Py.decimal 65 100)
       (Py.of_int 30) "Male" (Py.of_int 170) "Caucasian" None None None None None
     ++ ["DL/VA ratio: 4.50. Interpretation depends on clinical context (e.g., lung volume and gas exchange)."])%list.
Proof.
  rewrite (optional_measurements_append (Py.of_int 60) (Py.of_int 90)
             (Py.decimal 65 100) (Py.of_int 30) "Male" (Py.of_int 170)
             "Caucasian" None (Some (Py.decimal 45 10)) None None None).
  - f_equal.
  - left. vm_compute. reflexivity.
Defined.

(** X8. When no pattern fired and at least one optional measurement is
    given, the output is the measurement lines and nothing else: it carries
    no statement about the spirometry, not even the fallback. *)
Theorem measurements_alone (fev1 fvc fev1_fvc age : Py.float)
    (gender : string) (height : Py.float) (ethnicity : string)
    (dlco_sb dl_va va_sb ivc_sb bht : option Py.float) :
  (fev1_fvc <? calculate_lln (Py.of_int 1) age gender height ethnicity)%py = false ->
  (fvc <? Py.of_int 80)%py
  && (fev1_fvc >=? calculate_lln (Py.of_int 1) age gender height ethnicity)%py
  = false ->
  ~ (dlco_sb = None /\ dl_va = None /\ va_sb = None /\ ivc_sb = None
     /\ bht = None) ->
  interpret_pft fev1 fvc fev1_fvc age gender height ethnicity
    dlco_sb dl_va va_sb ivc_sb bht
  = diffusion_lines dlco_sb dl_va va_sb ivc_sb bht.
Proof.
  intros L R D. rewrite interpret_pft_rules. unfold pattern_lines.
  rewrite (proj2 (obstructive_lines_nil fev1 _ _) L),
    (proj2 (restrictive_lines_nil _ _ _) R), (mixed_lines_nil_of _ _ _ L).
  cbn [app]. apply fallback_nonempty.
  intros E. apply D. now apply diffusion_lines_nil.
Qed.

Lemma measurements_alone_witness :
  interpret_pft (Py.of_int 100) (Py.of_int 100) (Py.of_int 1) (Py.of_int 60)
    "Female" (Py.of_int 20) "Asian" (Some (Py.of_int 90)) None None None None
  = ["DLCO_SB is within normal limits."].
Proof.
  rewrite (measurements_alone (Py.of_int 100) (Py.of_int 100) (Py.of_int 1)
             (Py.of_int 60) "Female" (Py.of_int 20) "Asian"
             (Some (Py.of_int 90)) None None None None).
  - vm_compute. reflexivity.
  - vm_compute. reflexivity.
  - vm_compute. reflexivity.
  - intros [E _]. discriminate E.
Defined.

Lemma lines_with_fallback (p : string) (l : list string) :
  lines_with p normal_lines = [] ->
  lines_with p (fallback l) = lines_with p l.
Proof. intros N. destruct l; [exact N | reflexivity]. Qed.

Ltac no_pattern_line :=
  unfold pattern_lines, obstructive_lines, obstructive_line, severity_lines,
    restrictive_lines, mixed_lines;
  repeat match goal with
    | |- context [if ?c then _ else _] => destruct c
    end;
  reflexivity.

Lemma prefix_append (p s : string) : String.prefix p (p ++ s) = true.
Proof.
  induction p as [|a p IH]; cbn.
  - now destruct s.
  - destruct (ascii_dec a a) as [_|N]; [exact IH | now destruct N].
Qed.

Lemma lines_with_info_same (p after : string) (x : option Py.float) :
  lines_with p (info_line p after x) = info_line p after x.
Proof.
  destruct x as [x|]; [|reflexivity].
  unfold info_line, lines_with. cbn [filter]. now rewrite prefix_append.
Qed.

Ltac other_lines :=
  unfold dlco_lines, info_line;
  repeat match goal with
    | |- context [match ?o with Some _ => _ | None => _ end] => destruct o
    | |- context [if ?c then _ else _] => destruct c
    end;
  reflexivity.

Ltac measurement_lines :=
  rewrite interpret_pft_rules, lines_with_fallback by reflexivity;
  rewrite lines_with_app;
  match goal with
  | |- (lines_with ?p (pattern_lines ?a ?b ?c ?d) ++ _)%list = _ =>
      replace (lines_with p (pattern_lines a b c d)) with (@nil string)
        by (symmetry; no_pattern_line)
  end;
  unfold diffusion_lines; rewrite !lines_with_app, lines_with_info_same;
  repeat match goal with
    | |- context [lines_with ?p ?l] =>
        replace (lines_with p l) with (@nil string) by (symmetry; other_lines)
    end;
  rewrite ?app_nil_r; reflexivity.

(** X9. Each optional measurement that is given, and no other, has its
    informational line in the output: the lines that start with "DL/VA
    ratio: ", "VA_SB: ", "IVC_SB: " and "Breath-holding time (BHT): " are
    exactly the one line with the value to two places when the measurement
    is present, and none when it is absent. *)
Theorem measurement_lines_present (fev1 fvc fev1_fvc age : Py.float)
    (gender : string) (height : Py.float) (ethnicity : string)
    (dlco_sb dl_va va_sb ivc_sb bht : option Py.float) :
  let out := interpret_pft fev1 fvc fev1_fvc age gender height ethnicity
               dlco_sb dl_va va_sb ivc_sb bht in
  lines_with "DL/VA ratio: " out
  = match dl_va with
    | Some x =>
        ["DL/VA ratio: " ++ Py.format_2f x
           ++ ". Interpretation depends on clinical context (e.g., lung volume and gas exchange)."]
    | None => []
    end
  /\ lines_with "VA_SB: " out
     = match va_sb with
       | Some x =>
           ["VA_SB: " ++ Py.format_2f x ++ " L. This represents the alveolar volume."]
       | None => []
       end
  /\ lines_with "IVC_SB: " out
     = match ivc_sb with
       | Some x =>
           ["IVC_SB: " ++ Py.format_2f x
              ++ " L. Represents inspiratory capacity during single breath testing."]
       | None => []
       end
  /\ lines_with "Breath-holding time (BHT): " out
     = match bht with
       | Some x =>
           ["Breath-holding time (BHT): " ++ Py.format_2f x
              ++ " seconds. Ensure proper technique during test."]
       | None => []
       end.
Proof.
  intros out. subst out. repeat split; measurement_lines.
Qed.

(** X10. The DLCO statement follows the one test [dlco_sb < 80]: the
    "Reduced DLCO_SB" line is in the output exactly when DLCO_SB is given and
    below 80, the "within normal limits" line exactly when it is given and
    the test fails, which takes in a DLCO_SB that is not a number; with no
    DLCO_SB neither line appears. *)
Theorem dlco_statement (fev1 fvc fev1_fvc age : Py.float)
    (gender : string) (height : Py.float) (ethnicity : string)
    (dlco_sb dl_va va_sb ivc_sb bht : option Py.float) :
  let out := interpret_pft fev1 fvc fev1_fvc age gender height ethnicity
               dlco_sb dl_va va_sb ivc_sb bht in
  (In "Reduced DLCO_SB: Suggests impaired gas exchange." out
   <-> exists d, dlco_sb = Some d /\ (d <? Py.of_int 80)%py = true)
  /\ (In "DLCO_SB is within normal limits." out
      <-> exists d, dlco_sb = Some d /\ (d <? Py.of_int 80)%py = false)
  /\ In "DLCO_SB is within normal limits."
       (interpret_pft fev1 fvc fev1_fvc age gender height ethnicity
          (Some S754_nan) dl_va va_sb ivc_sb bht).
Proof.
  intros out. subst out.
  assert (Back : forall s d,
            In s (dlco_lines (Some d)) ->
            In s (interpret_pft fev1 fvc fev1_fvc age gender height ethnicity
                    (Some d) dl_va va_sb ivc_sb bht)).
  { intros s d H. rewrite interpret_pft_rules. apply in_fallback_of.
    unfold diffusion_lines. rewrite !in_app_iff. right; left. exact H. }
  split; [|split].
  - split.
    + intros H. rule_cases H. eexists. split; [reflexivity | assumption].
    + intros (d & -> & L). apply Back. unfold dlco_lines. rewrite L. now left.
  - split.
    + intros H. rule_cases H. eexists. split; [reflexivity | assumption].
    + intros (d & -> & L). apply Back. unfold dlco_lines. rewrite L. now left.
  - apply Back. now left.
Qed.

Lemma calculate_lln_other_ethnicity (parameter age height : Py.float)
    (gender1 gender2 ethnicity : string) :
  ethnicity <> "Caucasian" -> ethnicity <> "African American" ->
  ethnicity <> "Asian" ->
  calculate_lln parameter age gender1 height ethnicity
  = calculate_lln parameter age gender2 height "Caucasian".
Proof.
  intros C A S. unfold calculate_lln, adjustment_factor.
  destruct (String.eqb_spec ethnicity "Caucasian"); [contradiction|].
  destruct (String.eqb_spec ethnicity "African American"); [contradiction|].
  destruct (String.eqb_spec ethnicity "Asian"); [contradiction|].
  reflexivity.
Qed.

(** X11. The interpretation does not depend on the gender, and an ethnicity
    other than "Caucasian", "African American" and "Asian" is interpreted as
    "Caucasian": the two calls return the same lines. *)
Theorem interpretation_demographics (fev1 fvc fev1_fvc age : Py.float)
    (gender1 gender2 : string) (height : Py.float) (ethnicity : string)
    (dlco_sb dl_va va_sb ivc_sb bht : option Py.float) :
  interpret_pft fev1 fvc fev1_fvc age gender1 height ethnicity
    dlco_sb dl_va va_sb ivc_sb bht
  = interpret_pft fev1 fvc fev1_fvc age gender2 height ethnicity
      dlco_sb dl_va va_sb ivc_sb bht
  /\ (ethnicity <> "Caucasian" -> ethnicity <> "African American" ->
      ethnicity <> "Asian" ->
      interpret_pft fev1 fvc fev1_fvc age gender1 height ethnicity
        dlco_sb dl_va va_sb ivc_sb bht
      = interpret_pft fev1 fvc fev1_fvc age gender2 height "Caucasian"
          dlco_sb dl_va va_sb ivc_sb bht).
Proof.
  split.
  - reflexivity.
  - intros C A S. rewrite !interpret_pft_rules.
    now rewrite (calculate_lln_other_ethnicity _ _ _ gender1 gender2 _ C A S).
Qed.

Lemma interpretation_demographics_witness :
  interpret_pft (Py.of_int 60) (Py.of_int 70) (Py.decimal 65 100) (Py.of_int 30)
    "Other" (Py.of_int 170) "Other" None None None None None
  = interpret_pft (Py.of_int 60) (Py.of_int 70) (Py.decimal 65 100)
      (Py.of_int 30) "Male" (Py.of_int 170) "Caucasian" None None None None None.
Proof.
  apply (interpretation_demographics (Py.of_int 60) (Py.of_int 70)
           (Py.decimal 65 100) (Py.of_int 30) "Other" "Male" (Py.of_int 170)
           "Other" None None None None None); discriminate.
Defined.

(** X12. When the adjusted value is not above zero the cutoff is clamped to
    0, and then no ratio that is at least 0 reads as obstructive or mixed:
    the output has neither line, and the restrictive line exactly when
    [fvc < 80]. *)
Theorem clamped_cutoff_never_obstructive (fev1 fvc fev1_fvc age : Py.float)
    (gender : string) (height : Py.float) (ethnicity : string)
    (dlco_sb dl_va va_sb ivc_sb bht : option Py.float) :
  (adjustment_factor ethnicity
     * (Py.of_int 1 - (age * Py.decimal 2 100) + (height * Py.decimal 5 100))
     >? Py.of_int 0)%py = false ->
  (fev1_fvc >=? Py.of_int 0)%py = true ->
  let out := interpret_pft fev1 fvc fev1_fvc age gender height ethnicity
               dlco_sb dl_va va_sb ivc_sb bht in
  calculate_lln (Py.of_int 1) age gender height ethnicity = Py.of_int 0
  /\ ~ (exists line, In line out /\ is_obstructive_line line = true)
  /\ ~ In "Mixed obstructive and restrictive pattern detected." out
  /\ (In "Restrictive pattern detected." out <-> (fvc <? Py.of_int 80)%py = true).
Proof.
  intros Z G out. subst out.
  assert (E : calculate_lln (Py.of_int 1) age gender height ethnicity
              = Py.of_int 0)
    by (unfold calculate_lln, Py.max0; now rewrite Z).
  pose proof (ge_not_lt _ _ G) as L.
  split; [exact E|]. split; [|split].
  - intros O. apply obstructive_line_rule in O. rewrite E, L in O. discriminate O.
  - intros M. apply mixed_line_rule in M. destruct M as [M _].
    rewrite E, L in M. discriminate M.
  - split.
    + intros R. apply restrictive_line_rule in R. now destruct R.
    + intros F. apply restrictive_line_of; [exact F | now rewrite E].
Qed.

Lemma clamped_cutoff_never_obstructive_witness :
  calculate_lln (Py.of_int 1) (Py.of_int 90) "Female" (Py.of_int 10) "Asian"
  = Py.of_int 0
  /\ ~ In "Mixed obstructive and restrictive pattern detected."
         (interpret_pft (Py.of_int 40) (Py.of_int 60) (Py.decimal 30 100)
            (Py.of_int 90) "Female" (Py.of_int 10) "Asian"
            None None None None None).
Proof.
  destruct (clamped_cutoff_never_obstructive (Py.of_int 40) (Py.of_int 60)
              (Py.decimal 30 100) (Py.of_int 90) "Female" (Py.of_int 10) "Asian"
              None None None None None) as (E & _ & M & _).
  - vm_compute. reflexivity.
  - vm_compute. reflexivity.
  - split; [exact E | exact M].
Defined.

(** ** Whole-number patients of every ethnicity *)

Lemma adjusted_cutoff_eq (age height : Py.float) (gender ethnicity : string) :
  calculate_lln (Py.of_int 1) age gender height ethnicity
  = adjusted_cutoff (adjustment_factor ethnicity) (cutoff_base age height).
Proof.
  assert (E0 : Py.of_int 0 = float_0) by reflexivity.
  assert (E1 : Py.of_int 1 = float_1) by reflexivity.
  assert (E2 : Py.decimal 2 100 = float_0_02) by (vm_compute; reflexivity).
  assert (E5 : Py.decimal 5 100 = float_0_05) by (vm_compute; reflexivity).
  unfold calculate_lln, adjusted_cutoff, cutoff_base, Py.max0.
  rewrite E0, E1, E2, E5. reflexivity.
Qed.

Lemma adjustment_factor_values (ethnicity : string) :
  adjustment_factor ethnicity = float_1
  \/ adjustment_factor ethnicity = float_0_88
  \/ adjustment_factor ethnicity = float_0_94.
Proof.
  assert (E88 : Py.decimal 88 100 = float_0_88) by (vm_compute; reflexivity).
  assert (E94 : Py.decimal 94 100 = float_0_94) by (vm_compute; reflexivity).
  unfold adjustment_factor.
  destruct (ethnicity =? "Caucasian"); [now left|].
  destruct (ethnicity =? "African American"); [right; left; exact E88|].
  destruct (ethnicity =? "Asian"); [right; right; exact E94 | now left].
Qed.

(** The test [LLN > 1] under the factors 0.88 and 0.94, over every patient of
    whole-number age and height with [height >= 0.4 * age + 3]. *)
Lemma adjusted_grid_checked :
  (let heights := map cutoff_height_part (zrange 255) in
   forallb
     (fun age_years =>
        let from_age := cutoff_age_part age_years in
        forallb
          (fun from_height =>
             implb (2 * age_years + 15 <=? 5 * fst from_height)%Z
               (let base := (from_age + snd from_height)%py in
                (adjusted_cutoff float_0_88 base >? float_1)%py
                && (adjusted_cutoff float_0_94 base >? float_1)%py))
          heights)
     (zrange 121)) = true.
Proof. vm_compute. reflexivity. Qed.

Lemma whole_patient_cutoff_any (age_years height_cm : Z)
    (gender ethnicity : string) :
  0 <= age_years <= 120 -> 0 <= height_cm <= 254 ->
  2 * age_years + 15 <= 5 * height_cm ->
  (calculate_lln (Py.of_int 1) (Py.of_int age_years) gender
     (Py.of_int height_cm) ethnicity >? Py.of_int 1)%py = true.
Proof.
  intros A H C.
  assert (Ia : In age_years (zrange 121)) by (apply in_zrange; lia).
  assert (Ih : In height_cm (zrange 255)) by (apply in_zrange; lia).
  assert (E1 : Py.of_int 1 = float_1) by reflexivity.
  assert (G : (adjusted_cutoff float_0_88
                 (cutoff_base (Py.of_int age_years) (Py.of_int height_cm))
               >? float_1)%py
              && (adjusted_cutoff float_0_94
                    (cutoff_base (Py.of_int age_years) (Py.of_int height_cm))
                  >? float_1)%py = true).
  { assert (Ip : In (cutoff_height_part height_cm)
                     (map cutoff_height_part (zrange 255)))
      by (apply in_map; exact Ih).
    apply Z.leb_le in C.
    exact (implb_elim _ _
             (proj1 (forallb_forall _ _)
                (proj1 (forallb_forall _ _) adjusted_grid_checked age_years Ia)
                (cutoff_height_part height_cm) Ip) C). }
  apply andb_true_iff in G. destruct G as [G88 G94].
  destruct (adjustment_factor_values ethnicity) as [F|[F|F]].
  - rewrite adjusted_cutoff_eq, F, E1.
    pose proof (whole_patient_cutoff age_years height_cm gender A H
                  ltac:(lia)) as W.
    rewrite adjusted_cutoff_eq, E1 in W.
    assert (FC : adjustment_factor "Caucasian" = float_1) by reflexivity.
    rewrite FC in W. exact W.
  - rewrite adjusted_cutoff_eq, F, E1. exact G88.
  - rewrite adjusted_cutoff_eq, F, E1. exact G94.
Qed.

Lemma above_cutoff_first_line fev1 fvc fev1_fvc age gender height ethnicity
    dlco_sb dl_va va_sb ivc_sb bht :
  (fev1_fvc <? calculate_lln (Py.of_int 1) age gender height ethnicity)%py = true ->
  hd_error
    (interpret_pft fev1 fvc fev1_fvc age gender height ethnicity
       dlco_sb dl_va va_sb ivc_sb bht)
  = Some ("Obstructive pattern detected (LLN-adjusted cutoff: "
            ++ Py.format_2f (calculate_lln (Py.of_int 1) age gender height ethnicity)
            ++ ").")
  /\ ~ In "Normal PFT values."
         (interpret_pft fev1 fvc fev1_fvc age gender height ethnicity
            dlco_sb dl_va va_sb ivc_sb bht).
Proof.
  intros L. split.
  - rewrite (obstructive_line_first _ _ _ _ _ _ _ _ _ _ _ _ L). reflexivity.
  - rewrite interpret_pft_rules. intros H. apply in_fallback in H.
    destruct H as [H|[E _]].
    + now apply normal_line_not_in_rules in H.
    + apply app_eq_nil in E. destruct E as [P _].
      now apply (pattern_lines_fired fev1 fvc) in P; [|left].
Qed.

(** X13. For every ethnicity and gender, a patient of whole-number age from
    0 to 120 and whole-number height up to 254 cm with
    [height >= 0.4 * age + 3] (which takes in everyone of 51 cm or more) has
    a cutoff above 1; with any ratio of at most 1 the output then starts with
    the obstructive line and is never the "Normal PFT values." fallback,
    whatever the other measurements are. *)
Theorem whole_patient_always_obstructive (age_years height_cm : Z)
    (gender ethnicity : string) (fev1 fvc fev1_fvc : Py.float)
    (dlco_sb dl_va va_sb ivc_sb bht : option Py.float) :
  0 <= age_years <= 120 -> 0 <= height_cm <= 254 ->
  2 * age_years + 15 <= 5 * height_cm ->
  (fev1_fvc <=? Py.of_int 1)%py = true ->
  (calculate_lln (Py.of_int 1) (Py.of_int age_years) gender
     (Py.of_int height_cm) ethnicity >? Py.of_int 1)%py = true
  /\ hd_error
       (interpret_pft fev1 fvc fev1_fvc (Py.of_int age_years) gender
          (Py.of_int height_cm) ethnicity dlco_sb dl_va va_sb ivc_sb bht)
     = Some ("Obstructive pattern detected (LLN-adjusted cutoff: "
               ++ Py.format_2f
                    (calculate_lln (Py.of_int 1) (Py.of_int age_years) gender
                       (Py.of_int height_cm) ethnicity)
               ++ ").")
  /\ ~ In "Normal PFT values."
         (interpret_pft fev1 fvc fev1_fvc (Py.of_int age_years) gender
            (Py.of_int height_cm) ethnicity dlco_sb dl_va va_sb ivc_sb bht).
Proof.
  intros A H C R.
  pose proof (whole_patient_cutoff_any age_years height_cm gender ethnicity A H C)
    as G.
  split; [exact G|].
  apply above_cutoff_first_line. exact (le_lt_trans _ _ _ R G).
Qed.

Lemma whole_patient_always_obstructive_witness :
  hd_error
    (interpret_pft (Py.of_int 95) (Py.of_int 95) (Py.decimal 99 100)
       (Py.of_int 45) "Female" (Py.of_int 165) "African American"
       None None None None None)
  = Some "Obstructive pattern detected (LLN-adjusted cutoff: 7.35).".
Proof.
  destruct (whole_patient_always_obstructive 45 165 "Female" "African American"
              (Py.of_int 95) (Py.of_int 95) (Py.decimal 99 100)
              None None None None None) as (_ & F & _); try lia.
  - vm_compute. reflexivity.
  - rewrite F. vm_compute. reflexivity.
Defined.

(** ** The page *)

Lemma calculate_pef_male_eq (age height : Py.float) :
  calculate_pef age "Male" height = Some (male_pef age height).
Proof.
  assert (E1 : Py.of_int 187 = float_187) by reflexivity.
  assert (E2 : Py.decimal 548 100 = float_5_48) by (vm_compute; reflexivity).
  assert (E3 : Py.decimal 34 1000 = float_0_034) by (vm_compute; reflexivity).
  unfold calculate_pef, male_pef. cbn [String.eqb Ascii.eqb Bool.eqb].
  rewrite E1, E2, E3. reflexivity.
Qed.

Lemma calculate_pef_female_eq (age height : Py.float) :
  calculate_pef age "Female" height = Some (female_pef age height).
Proof.
  assert (E1 : Py.of_int 153 = float_153) by reflexivity.
  assert (E2 : Py.decimal 450 100 = float_4_50) by (vm_compute; reflexivity).
  assert (E3 : Py.decimal 26 1000 = float_0_026) by (vm_compute; reflexivity).
  unfold calculate_pef, female_pef. cbn [String.eqb Ascii.eqb Bool.eqb].
  rewrite E1, E2, E3. reflexivity.
Qed.

Lemma positive_truthy (x : Py.float) :
  (x >? float_0)%py = true -> Py.truthy x = true.
Proof. destruct x as [s| | |]; try reflexivity. destruct s; discriminate. Qed.

(** Both estimates are above zero for every whole-number age from 0 to 120
    and whole-number height from 0 to 254 cm. *)
Lemma pef_grid_checked :
  (let heights := map pef_height_parts (zrange 255) in
   forallb
     (fun age_years =>
        let from_age := pef_age_parts age_years in
        forallb
          (fun from_height =>
             (fst from_height - fst from_age >? float_0)%py
             && (snd from_height - snd from_age >? float_0)%py)
          heights)
     (zrange 121)) = true.
Proof. vm_compute. reflexivity. Qed.

(** X14. For a whole-number age from 0 to 120 and a whole-number height from
    0 to 254 cm the peak-flow block writes the "not available" message
    exactly when the gender is neither "Male" nor "Female"; for these two
    the estimate is above zero, so the test [if pef:] lets it through and
    the block writes the estimate to two places and the caveat. *)
Theorem pef_block_by_gender (age_years height_cm : Z) (gender : string) :
  0 <= age_years <= 120 -> 0 <= height_cm <= 254 ->
  (show_pef (Py.of_int age_years) gender (Py.of_int height_cm)
   = ["PEF calculation not available for the selected gender."]
   <-> gender <> "Male" /\ gender <> "Female")
  /\ (gender = "Male" \/ gender = "Female" ->
      exists v,
        calculate_pef (Py.of_int age_years) gender (Py.of_int height_cm) = Some v
        /\ (v >? Py.of_int 0)%py = true
        /\ show_pef (Py.of_int age_years) gender (Py.of_int height_cm)
           = ["**Estimated Peak Expiratory Flow (PEF):** " ++ Py.format_2f v
                ++ " L/min (based on NHANES equations).";
              "**Caveat:** NHANES equations may not fully account for variations across all ethnic groups."]).
Proof.
  intros A H.
  assert (Ia : In age_years (zrange 121)) by (apply in_zrange; lia).
  assert (Ih : In height_cm (zrange 255)) by (apply in_zrange; lia).
  assert (G : (male_pef (Py.of_int age_years) (Py.of_int height_cm) >? float_0)%py
              && (female_pef (Py.of_int age_years) (Py.of_int height_cm)
                  >? float_0)%py = true)
    by exact (proj1 (forallb_forall _ _)
                (proj1 (forallb_forall _ _) pef_grid_checked age_years Ia)
                (pef_height_parts height_cm)
                (in_map pef_height_parts _ _ Ih)).
  apply andb_true_iff in G. destruct G as [GM GF].
  assert (Shown : gender = "Male" \/ gender = "Female" ->
            exists v,
              calculate_pef (Py.of_int age_years) gender (Py.of_int height_cm)
              = Some v
              /\ (v >? Py.of_int 0)%py = true
              /\ show_pef (Py.of_int age_years) gender (Py.of_int height_cm)
                 = ["**Estimated Peak Expiratory Flow (PEF):** "
                      ++ Py.format_2f v ++ " L/min (based on NHANES equations).";
                    "**Caveat:** NHANES equations may not fully account for variations across all ethnic groups."]).
  { intros [-> | ->].
    - exists (male_pef (Py.of_int age_years) (Py.of_int height_cm)).
      split; [apply calculate_pef_male_eq|]. split; [exact GM|].
      unfold show_pef. rewrite calculate_pef_male_eq.
      now rewrite (positive_truthy _ GM).
    - exists (female_pef (Py.of_int age_years) (Py.of_int height_cm)).
      split; [apply calculate_pef_female_eq|]. split; [exact GF|].
      unfold show_pef. rewrite calculate_pef_female_eq.
      now rewrite (positive_truthy _ GF). }
  split; [|exact Shown].
  split.
  - intros E. split; intros ->.
    + destruct (Shown (or_introl eq_refl)) as (v & _ & _ & S).
      rewrite S in E. discriminate E.
    + destruct (Shown (or_intror eq_refl)) as (v & _ & _ & S).
      rewrite S in E. discriminate E.
  - intros [M F]. unfold show_pef, calculate_pef.
    destruct (String.eqb_spec gender "Male"); [contradiction|].
    destruct (String.eqb_spec gender "Female"); [contradiction|].
    reflexivity.
Qed.

Lemma pef_block_by_gender_witness :
  show_pef (Py.of_int 30) "Male" (Py.of_int 170)
  = ["**Estimated Peak Expiratory Flow (PEF):** 1117.58 L/min (based on NHANES equations).";
     "**Caveat:** NHANES equations may not fully account for variations across all ethnic groups."].
Proof.
  destruct (pef_block_by_gender 30 170 "Male") as [_ S]; try lia.
  destruct (S (or_introl eq_refl)) as (v & E & _ & W).
  rewrite W. vm_compute in E. injection E as <-. vm_compute. reflexivity.
Defined.

(** X15. The metric conversions lose nothing to the arithmetic: a height of
    [t] tenths of an inch, [t] from 0 to 1000, is converted to the binary64
    of the exact [2.54 * t / 10] cm rounded to two places, and a weight of
    [p] whole pounds, [p] from 0 to 660, to that of the exact
    [0.453592 * p] kg rounded to two places. *)
Theorem metric_conversions_exact (n : Z) :
  (0 <= n <= 1000 ->
   height_cm_of (Py.decimal n 10) = Py.decimal ((254 * n + 5) / 10) 100)
  /\ (0 <= n <= 660 ->
      weight_kg_of (Py.of_int n) = Py.decimal ((453592 * n + 5000) / 10000) 100).
Proof.
  pose proof conversion_grids_checked as G.
  apply andb_true_iff in G. destruct G as [GH GW].
  split; intros B; apply same_float_eq.
  - exact (proj1 (forallb_forall _ _) GH n (in_zrange 1001 n ltac:(lia))).
  - exact (proj1 (forallb_forall _ _) GW n (in_zrange 661 n ltac:(lia))).
Qed.

Lemma metric_conversions_exact_witness :
  Py.format_2f (height_cm_of (Py.decimal 669 10)) = "169.93"
  /\ Py.format_2f (weight_kg_of (Py.of_int 150)) = "68.04".
Proof.
  destruct (metric_conversions_exact 669) as [H _].
  destruct (metric_conversions_exact 150) as [_ W].
  rewrite H, W by lia. split; vm_compute; reflexivity.
Defined.

Lemma normal_line_rule fev1 fvc fev1_fvc age gender height ethnicity
    dlco_sb dl_va va_sb ivc_sb bht :
  In "Normal PFT values."
    (interpret_pft fev1 fvc fev1_fvc age gender height ethnicity
       dlco_sb dl_va va_sb ivc_sb bht) ->
  pattern_lines fev1 fvc fev1_fvc
    (calculate_lln (Py.of_int 1) age gender height ethnicity) = []
  /\ diffusion_lines dlco_sb dl_va va_sb ivc_sb bht = [].
Proof.
  rewrite interpret_pft_rules. intros H. apply in_fallback in H.
  destruct H as [H|[E _]].
  - now apply normal_line_not_in_rules in H.
  - now apply app_eq_nil in E.
Qed.

(** X16. Ticking "Show additional optional inputs" hands all five
    measurements to the interpreter, and the results then never contain
    "Normal PFT values." and end with the DL/VA, VA_SB, IVC_SB and BHT lines.
    If the results without the box are the fallback, those with it are the
    DLCO statement and the four lines alone; otherwise they are the results
    without the box followed by the DLCO statement and the four lines. *)
Theorem optional_inputs_shown (fev1 fvc fev1_fvc age : Py.float)
    (gender : string) (height_inches : Py.float) (ethnicity : string)
    (dlco_sb dl_va va_sb ivc_sb bht : Py.float) :
  let shown :=
    page_results fev1 fvc fev1_fvc age gender height_inches ethnicity
      (sidebar_optional true dlco_sb dl_va va_sb ivc_sb bht) in
  let hidden :=
    page_results fev1 fvc fev1_fvc age gender height_inches ethnicity
      (sidebar_optional false dlco_sb dl_va va_sb ivc_sb bht) in
  let measured :=
    ((if (dlco_sb <? Py.of_int 80)%py then
        ["Reduced DLCO_SB: Suggests impaired gas exchange.";
         "Next steps: Investigate causes such as interstitial lung disease, pulmonary hypertension, or emphysema. Consider echocardiography or CT imaging."]
      else ["DLCO_SB is within normal limits."])
     ++ [("DL/VA ratio: " ++ Py.format_2f dl_va
            ++ ". Interpretation depends on clinical context (e.g., lung volume and gas exchange).")%string;
         ("VA_SB: " ++ Py.format_2f va_sb
            ++ " L. This represents the alveolar volume.")%string;
         ("IVC_SB: " ++ Py.format_2f ivc_sb
            ++ " L. Represents inspiratory capacity during single breath testing.")%string;
         ("Breath-holding time (BHT): " ++ Py.format_2f bht
            ++ " seconds. Ensure proper technique during test.")%string])%list in
  ~ In "Normal PFT values." shown
  /\ (In "Normal PFT values." hidden -> shown = measured)
  /\ (~ In "Normal PFT values." hidden -> shown = (hidden ++ measured)%list).
Proof.
  intros shown hidden measured.
  assert (D : diffusion_lines (Some dlco_sb) (Some dl_va) (Some va_sb)
                (Some ivc_sb) (Some bht) = measured).
  { subst measured. unfold diffusion_lines, dlco_lines, info_line.
    destruct (dlco_sb <? Py.of_int 80)%py; reflexivity. }
  assert (M : measured <> []).
  { subst measured. destruct (dlco_sb <? Py.of_int 80)%py; discriminate. }
  subst shown hidden. unfold page_results, sidebar_optional.
  cbn [opt_dlco_sb opt_dl_va opt_va_sb opt_ivc_sb opt_bht].
  set (ratio := Py.div fev1_fvc (Py.of_int 100)).
  set (height_cm := height_cm_of height_inches).
  split; [|split].
  - intros H. apply normal_line_rule in H. destruct H as [_ H].
    rewrite D in H. contradiction.
  - intros H. apply normal_line_rule in H. destruct H as [P _].
    rewrite interpret_pft_rules, P, D. cbn [app]. now apply fallback_nonempty.
  - intros H. rewrite !interpret_pft_rules in *. rewrite D.
    change (diffusion_lines None None None None None) with (@nil string) in *.
    rewrite app_nil_r in *.
    destruct (pattern_lines fev1 fvc ratio
                (calculate_lln (Py.of_int 1) age gender height_cm ethnicity))
      as [|line rest] eqn:P.
    + exfalso. apply H. now left.
    + reflexivity.
Qed.

Lemma optional_inputs_shown_witness :
  page_results (Py.of_int 100) (Py.of_int 100) (Py.of_int 99) (Py.of_int 60)
    "Female" (Py.of_int 8) "Caucasian"
    (sidebar_optional false (Py.of_int 90) (Py.of_int 4) (Py.of_int 5)
       (Py.of_int 3) (Py.of_int 10))
  = ["Normal PFT values.";
     "Next steps: No action needed. Encourage routine follow-up if indicated."]
  /\ page_results (Py.of_int 100) (Py.of_int 100) (Py.of_int 99) (Py.of_int 60)
       "Female" (Py.of_int 8) "Caucasian"
       (sidebar_optional true (Py.of_int 90) (Py.of_int 4) (Py.of_int 5)
          (Py.of_int 3) (Py.of_int 10))
     = ["DLCO_SB is within normal limits.";
        "DL/VA ratio: 4.00. Interpretation depends on clinical context (e.g., lung volume and gas exchange).";
        "VA_SB: 5.00 L. This represents the alveolar volume.";
        "IVC_SB: 3.00 L. Represents inspiratory capacity during single breath testing.";
        "Breath-holding time (BHT): 10.00 seconds. Ensure proper technique during test."].
Proof.
  assert (N : page_results (Py.of_int 100) (Py.of_int 100) (Py.of_int 99)
                (Py.of_int 60) "Female" (Py.of_int 8) "Caucasian"
                (sidebar_optional false (Py.of_int 90) (Py.of_int 4)
                   (Py.of_int 5) (Py.of_int 3) (Py.of_int 10))
              = ["Normal PFT values.";
                 "Next steps: No action needed. Encourage routine follow-up if indicated."])
    by (vm_compute; reflexivity).
  split; [exact N|].
  destruct (optional_inputs_shown (Py.of_int 100) (Py.of_int 100) (Py.of_int 99)
              (Py.of_int 60) "Female" (Py.of_int 8) "Caucasian" (Py.of_int 90)
              (Py.of_int 4) (Py.of_int 5) (Py.of_int 3) (Py.of_int 10))
    as (_ & S & _).
  rewrite S by (rewrite N; now left).
  vm_compute. reflexivity.
Defined.

(** X17. fev1 is read only when the obstructive test holds: when
    [fev1_fvc < LLN] is false the output has no severity band and is the
    same for every fev1. *)
Theorem fev1_ignored_without_obstruction (fev1 fev1' fvc fev1_fvc age : Py.float)
    (gender : string) (height : Py.float) (ethnicity : string)
    (dlco_sb dl_va va_sb ivc_sb bht : option Py.float) :
  (fev1_fvc <? calculate_lln (Py.of_int 1) age gender height ethnicity)%py = false ->
  severity_bands
    (interpret_pft fev1 fvc fev1_fvc age gender height ethnicity
       dlco_sb dl_va va_sb ivc_sb bht) = []
  /\ interpret_pft fev1 fvc fev1_fvc age gender height ethnicity
       dlco_sb dl_va va_sb ivc_sb bht
     = interpret_pft fev1' fvc fev1_fvc age gender height ethnicity
         dlco_sb dl_va va_sb ivc_sb bht.
Proof.
  intros L.
  assert (P : forall f,
            pattern_lines f fvc fev1_fvc
              (calculate_lln (Py.of_int 1) age gender height ethnicity)
            = restrictive_lines fvc fev1_fvc
                (calculate_lln (Py.of_int 1) age gender height ethnicity)).
  { intros f. unfold pattern_lines.
    rewrite (proj2 (obstructive_lines_nil f _ _) L), (mixed_lines_nil_of _ _ _ L).
    cbn [app]. apply app_nil_r. }
  split.
  - rewrite interpret_pft_rules, P.
    destruct (restrictive_lines _ _ _ ++ diffusion_lines _ _ _ _ _)%list eqn:E.
    + reflexivity.
    + rewrite <- E. cbn [fallback].
      replace (fallback _) with
        (restrictive_lines fvc fev1_fvc
           (calculate_lln (Py.of_int 1) age gender height ethnicity)
         ++ diffusion_lines dlco_sb dl_va va_sb ivc_sb bht)%list
        by (rewrite E; reflexivity).
      now rewrite severity_bands_app, severity_bands_restrictive,
        severity_bands_diffusion.
  - rewrite !interpret_pft_rules, !P. reflexivity.
Qed.

Lemma fev1_ignored_without_obstruction_witness :
  interpret_pft (Py.of_int 20) (Py.of_int 70) (Py.decimal 95 100) (Py.of_int 80)
    "Female" (Py.of_int 30) "Caucasian" None None None None None
  = interpret_pft (Py.of_int 100) (Py.of_int 70) (Py.decimal 95 100)
      (Py.of_int 80) "Female" (Py.of_int 30) "Caucasian" None None None None None.
Proof.
  apply (fev1_ignored_without_obstruction (Py.of_int 20) (Py.of_int 100)
           (Py.of_int 70) (Py.decimal 95 100) (Py.of_int 80) "Female"
           (Py.of_int 30) "Caucasian" None None None None None).
  vm_compute. reflexivity.
Defined.
